(** * probe_floppy: a shallow embedding of [probe_floppy.py]

    The script asks the [fluxengine] command to decode one track of the
    floppy in the drive and classifies the medium from a few signature
    bytes.  The embedding keeps the shape of the Python code:

    - a [bytearray] is a [list byte]; indexing it yields an integer in
      [0, 255], or raises [IndexError] outside of the buffer;
    - Python exceptions are the [Raise] case of [result];
    - everything that talks to the operating system ([tempfile.mktemp],
      [subprocess.run], [open(...).read()], [os.unlink]) is an operation
      of an abstract [Host], and the code that uses it is written in a
      state-and-exception monad over the host's world;
    - [logging] calls only print, they are left out; so are the calls
      of [dump_data] in the probes, which print the hex dump that
      [dump_data] is modelled to produce. *)

From Stdlib Require Import ZArith List String Ascii Bool QArith Lia.
From Stdlib Require Import Strings.Byte.
From Stdlib Require Import DecimalString.
From Stdlib Require HexadecimalString.
Import ListNotations.

Local Open Scope string_scope.
Local Open Scope list_scope.
Local Open Scope Z_scope.

(** ** Exceptions and results *)

Inductive exn : Type :=
| IndexError
| TypeError
| KeyError
| ZeroDivisionError
| OSError.

Inductive result (A : Type) : Type :=
| Ok (a : A)
| Raise (e : exn).

Arguments Ok {A} a.
Arguments Raise {A} e.

Definition rbind {A B : Type} (r : result A) (k : A -> result B) : result B :=
  match r with
  | Ok a => k a
  | Raise e => Raise e
  end.

Declare Scope py_scope.
Delimit Scope py_scope with py.

Notation "x <~ r ;; k" := (rbind r (fun x => k))
  (at level 100, r at next level, right associativity) : py_scope.

Local Open Scope py_scope.

(** ** Byte buffers *)

Definition bytes : Type := list byte.

(** The integer a byte stands for, in [0, 255]. *)
Definition byte_int (b : byte) : Z := Z.of_N (Byte.to_N b).

(** Iterating a [bytearray] yields its bytes as integers. *)
Definition ints (data : bytes) : list Z := map byte_int data.

Definition len {A : Type} (l : list A) : Z := Z.of_nat (List.length l).

(** [data[i]]: a negative index counts from the end, an index outside of
    the buffer raises [IndexError]. *)
Definition getitem (data : bytes) (i : Z) : result Z :=
  let j := if i <? 0 then i + len data else i in
  if j <? 0 then Raise IndexError
  else match nth_error data (Z.to_nat j) with
       | Some b => Ok (byte_int b)
       | None => Raise IndexError
       end.

(** [chr(b)] for a byte value. *)
Definition chr (b : Z) : ascii := ascii_of_N (Z.to_N b).

(** [str(n)] for an integer. *)
Definition str_int (n : Z) : string := NilZero.string_of_int (Z.to_int n).

(** The values [read_track] passes to [bytearray(...)]: the [bytes] read
    from the image file, or the [str] literal of the failure branch. *)
Inductive pyobj : Type :=
| PyBytes (b : bytes)
| PyStr (s : string).

(** [bytearray(x)] with a single argument: a [bytes] object is copied, a
    [str] without an encoding is refused with [TypeError] (Python 3). *)
Definition bytearray (x : pyobj) : result bytes :=
  match x with
  | PyBytes b => Ok b
  | PyStr _ => Raise TypeError
  end.

(** ** The field decoder *)

(** [has_data]: [len([x for x in data if x != 0]) > 0]. *)
Definition has_data (data : bytes) : bool :=
  0 <? len (filter (fun x => negb (x =? 0)) (ints data)).

(** The loop of [get_string]: [n] indices remain, starting at [i]. *)
Fixpoint get_string_loop (data : bytes) (i : Z) (n : nat) (buffer : string)
  : result string :=
  match n with
  | O => Ok buffer
  | S n' =>
      b <~ getitem data i ;;
      get_string_loop data (i + 1) n' (buffer ++ String (chr b) "")%string
  end.

(** [get_string(data, offset, length)]; [range(offset, offset + length)]
    has [max 0 length] elements. *)
Definition get_string (data : bytes) (offset length : Z) : result string :=
  get_string_loop data offset (Z.to_nat length) "".

(** [get_word(data, offset, big_endian=False)]. *)
Definition get_word (data : bytes) (offset : Z) (big_endian : bool) : result Z :=
  if big_endian then
    hi <~ getitem data offset ;;
    lo <~ getitem data (offset + 1) ;;
    Ok (hi * 256 + lo)
  else
    lo <~ getitem data offset ;;
    hi <~ getitem data (offset + 1) ;;
    Ok (lo + hi * 256).

(** [get_dword(data, offset, big_endian=False)]. *)
Definition get_dword (data : bytes) (offset : Z) (big_endian : bool) : result Z :=
  if big_endian then
    hi <~ get_word data offset true ;;
    lo <~ get_word data (offset + 2) true ;;
    Ok (hi * 65536 + lo)
  else
    lo <~ get_word data offset false ;;
    hi <~ get_word data (offset + 2) false ;;
    Ok (lo + hi * 65536).

(** [a / b] on integers is Python's true division.  The probe divides a
    16-bit count by a power of two of at most 128, a quotient that a
    binary64 float holds exactly, so the rational number is the float. *)
Definition truediv (a b : Z) : result Q :=
  if b =? 0 then Raise ZeroDivisionError
  else Ok (Qdiv (inject_Z a) (inject_Z b)).

(** [q < n] for a quotient and an integer bound. *)
Definition Qltb (q : Q) (n : Z) : bool := negb (Qle_bool (inject_Z n) q).

(** A Python [dict] with string keys, in insertion order. *)
Definition dict (V : Type) : Type := list (string * V).

Definition keys {V : Type} (d : dict V) : list string := map fst d.

(** [d[k]]: [KeyError] for a missing key. *)
Fixpoint dict_getitem {V : Type} (d : dict V) (k : string) : result V :=
  match d with
  | [] => Raise KeyError
  | (k', v) :: d' => if String.eqb k' k then Ok v else dict_getitem d' k
  end.

(** [d.get(k, None)]. *)
Fixpoint dict_get {V : Type} (d : dict V) (k : string) : option V :=
  match d with
  | [] => None
  | (k', v) :: d' => if String.eqb k' k then Some v else dict_get d' k
  end.

(** [x in (a, b, ...)] on integers. *)
Definition in_tuple (x : Z) (t : list Z) : bool := existsb (Z.eqb x) t.

(** ** The host: temporary files, the capture command, the file system *)

(** What [subprocess.run] hands back. *)
Record CompletedProcess : Type := {
  returncode : Z;
  stdout : string
}.

(** Code that acts on the world [W] and may raise. *)
Definition M (W A : Type) : Type := W -> result A * W.

Definition ret {W A : Type} (a : A) : M W A := fun w => (Ok a, w).

Definition bind {W A B : Type} (m : M W A) (k : A -> M W B) : M W B :=
  fun w =>
    match m w with
    | (Ok a, w') => k a w'
    | (Raise e, w') => (Raise e, w')
    end.

(** A computation without effects, run inside [M]. *)
Definition lift {W A : Type} (r : result A) : M W A := fun w => (r, w).

Notation "x <- m ;; k" := (bind m (fun x => k))
  (at level 100, m at next level, right associativity) : py_scope.

(** The operations of the host.  Each one may fail ([None]): no such
    command, no such file, output that is not UTF-8.  The class does not
    tell which exception the failed operation raised, and no property
    below depends on it. *)
Class Host (World : Type) : Type := {
  (** [tempfile.mktemp()] *)
  mktemp : World -> option string * World;
  (** [subprocess.run(args, stdout=PIPE, stderr=STDOUT, encoding='utf8')] *)
  subprocess_run : list string -> World -> option CompletedProcess * World;
  (** [with open(name, 'rb') as f: f.read()] *)
  open_read : string -> World -> option bytes * World;
  (** [os.unlink(name)] *)
  unlink : string -> World -> option unit * World
}.

(** A host operation as code that may raise.  [OSError] stands here for
    the exception of the failed operation, whichever it was. *)
Definition os {W A : Type} (op : W -> option A * W) : M W A :=
  fun w =>
    match op w with
    | (Some a, w') => (Ok a, w')
    | (None, w') => (Raise OSError, w')
    end.

(** ** Parameters *)

(** [--size], restricted by [choices] to ["3.5"] and ["5.25"]. *)
Inductive MediaSize : Type := Size_3_5 | Size_5_25.

(** The [fluxengine_params] dictionary. *)
Record Params : Type := {
  device : option string;
  drive : Z;
  media_size : MediaSize;
  forty_track : bool
}.

(** What a probe returns: [(format, filesystem)], each possibly [None]. *)
Definition verdict : Type := (option string * option string)%type.

(** The candidate table of [probe_bpb]: format name to total sectors. *)
Definition bpb_probes (size : MediaSize) : dict Z :=
  match size with
  | Size_3_5 => [("ibm1440", 2880); ("ibm720", 1440)]
  | Size_5_25 => [("ibm1200", 2400); ("ibm360", 720); ("ibm320", 640);
                  ("ibm180", 360); ("ibm160", 320)]
  end.

(** The table of [probe_amiga]. *)
Definition fstypes : dict string :=
  [(String "D" (String "O" (String "S" (String "000" ""))), "amiga_ofs");
   (String "D" (String "O" (String "S" (String "001" ""))), "amiga_ffs");
   (String "D" (String "O" (String "S" (String "002" ""))),
     "amiga_ofs_international");
   (String "D" (String "O" (String "S" (String "003" ""))),
     "amiga_ffs_international");
   (String "D" (String "O" (String "S" (String "004" ""))),
     "amiga_ofs_international_dircache");
   (String "D" (String "O" (String "S" (String "005" ""))),
     "amiga_ffs_international_dircache")].

(** What [main] leaves behind: the line it printed, and whether it left
    through [exit(0)] or by returning. *)
Inductive Outcome : Type :=
| Exited (status : Z) (line : string)
| Returned (line : string).

(** [str(x)] for a value that is a string or [None]. *)
Definition str_opt (x : option string) : string :=
  match x with
  | Some s => s
  | None => "None"
  end.

(** [--drive], restricted by [choices]. *)
Inductive DriveChoice : Type := Drive_A | Drive_a | Drive_B | Drive_b.

(** [args.drive.lower()] *)
Definition drive_lower (d : DriveChoice) : string :=
  match d with
  | Drive_A | Drive_a => "a"
  | Drive_B | Drive_b => "b"
  end.

(** The parsed command line. *)
Record Args : Type := {
  args_debug : bool;
  args_drive : DriveChoice;
  args_tracks : Z;
  args_size : MediaSize;
  args_device : option string
}.

(** The [fluxengine_params] that [main] builds from the arguments. *)
Definition fluxengine_params (args : Args) : Params :=
  {| device := args_device args;
     drive := if String.eqb (drive_lower (args_drive args)) "a" then 0 else 1;
     media_size := args_size args;
     forty_track := args_tracks args =? 40 |}.

Section Probes.

Context {World : Type} `{Host World}.

(** [read_track(decoder, cylinder, fe_params)] *)
Definition read_track (decoder : string) (cylinder : Z) (fe_params : Params)
  : M World bytes :=
  let args := ["fluxengine"; "read"; decoder] in
  let args := if forty_track fe_params then args ++ ["40track_drive"] else args in
  name <- os mktemp ;;
  let tmpfile := (name ++ ".img")%string in
  let args := args ++ ["-s"; ("drive:" ++ str_int (drive fe_params))%string;
                       "--output"; tmpfile;
                       "--cylinders"; str_int cylinder;
                       "--decoder.retries=6"] in
  p <- os (subprocess_run args) ;;
  data <- (if returncode p =? 0 then
             content <- os (open_read tmpfile) ;;
             _ <- os (unlink tmpfile) ;;
             ret (PyBytes content)
           else
             ret (PyStr "")) ;;
  lift (bytearray data).

(** The [for ... else] loop of [probe_bpb] over the formats still to be
    tried: [continue] and falling out of the [if]s go on with the rest,
    [break] returns the format with its filesystem, the [else] of the
    loop returns [(None, None)]. *)
Fixpoint probe_bpb_loop (fe_params : Params) (debug : bool)
  (formats : list string) : M World verdict :=
  match formats with
  | [] => ret (None, None)
  | format :: rest =>
      data <- read_track format 0 fe_params ;;
      if negb (has_data data) then probe_bpb_loop fe_params debug rest
      else
        signature <- lift (get_word data 0x1fe false) ;;
        if signature =? 0xaa55 then
          jump <- lift (getitem data 0) ;;
          if in_tuple jump [0xeb; 0xe9] then
            bpb_total_sectors <- lift (get_word data 0x13 false) ;;
            expected <- lift (dict_getitem (bpb_probes (media_size fe_params))
                                           format) ;;
            if bpb_total_sectors =? expected then
              bpb_sectors_per_cluster <- lift (getitem data 0x0d) ;;
              if negb (in_tuple bpb_sectors_per_cluster
                                [1; 2; 4; 8; 16; 32; 64; 128])
              then probe_bpb_loop fe_params debug rest
              else
                cluster_count <- lift (truediv bpb_total_sectors
                                               bpb_sectors_per_cluster) ;;
                let filesystem :=
                  if Qltb cluster_count 4085 then "fat12"
                  else if Qltb cluster_count 65525 then "fat16"
                  else "fat32" in
                ret (Some format, Some filesystem)
            else probe_bpb_loop fe_params debug rest
          else probe_bpb_loop fe_params debug rest
        else probe_bpb_loop fe_params debug rest
  end.

(** [probe_bpb(fe_params, debug)] *)
Definition probe_bpb (fe_params : Params) (debug : bool) : M World verdict :=
  probe_bpb_loop fe_params debug (keys (bpb_probes (media_size fe_params))).

(** The second half of [probe_mac], from the [mac800] read on. *)
Definition probe_mac_800 (fe_params : Params) (debug : bool) : M World verdict :=
  data <- read_track "mac800" 0 fe_params ;;
  if negb (has_data data) then ret (None, None)
  else
    boot <- lift (get_word data 0 true) ;;
    if boot =? 0x4c4b then ret (Some "mac800", Some "hfs")
    else
      volume <- lift (get_word data 0x400 true) ;;
      if volume =? 0x4244 then ret (Some "mac800", Some "hfs")
      else
        volume <- lift (get_word data 0x400 true) ;;
        if volume =? 0xd2d7 then ret (Some "mac400", Some "mfs")
        else ret (Some "mac800", None).

(** [probe_mac(fe_params, debug)] *)
Definition probe_mac (fe_params : Params) (debug : bool) : M World verdict :=
  match media_size fe_params with
  | Size_5_25 => ret (None, None)
  | Size_3_5 =>
      data <- read_track "ibm1440" 0 fe_params ;;
      if has_data data then
        volume <- lift (get_word data 0x400 true) ;;
        if volume =? 0x4244 then ret (Some "ibm1440", Some "hfs")
        else probe_mac_800 fe_params debug
      else probe_mac_800 fe_params debug
  end.

(** [probe_amiga(fe_params, debug)] *)
Definition probe_amiga (fe_params : Params) (debug : bool) : M World verdict :=
  match media_size fe_params with
  | Size_5_25 => ret (None, None)
  | Size_3_5 =>
      data <- read_track "amiga" 0 fe_params ;;
      if negb (has_data data) then ret (None, None)
      else
        fstype <- lift (get_string data 0 4) ;;
        ret (Some "amiga", dict_get fstypes fstype)
  end.

(** [probe_c64(fe_params, debug)] *)
Definition probe_c64 (fe_params : Params) (debug : bool) : M World verdict :=
  match media_size fe_params with
  | Size_5_25 =>
      data <- read_track "commodore1541" 17 fe_params ;;
      if has_data data then
        track <- lift (getitem data 0x16500) ;;
        if track =? 0x12 then
          sector <- lift (getitem data 0x16501) ;;
          if sector =? 0x01 then
            version <- lift (get_string data 0x165a5 2) ;;
            if String.eqb version "2A" then ret (Some "commodore1541", Some "2A")
            else ret (None, None)
          else ret (None, None)
        else ret (None, None)
      else ret (None, None)
  | Size_3_5 => ret (None, None)
  end.

(** The line [main] prints for a verdict with a format. *)
Definition format_line (format : string) (filesystem : option string) : string :=
  ("Format: " ++ format ++ ", Filesystem: " ++ str_opt filesystem)%string.

Definition not_common : string := "Not a common format or it is corrupt".

(** The probe loop of [main]: the first probe with a format prints it and
    exits, after the last probe the fallback line is printed. *)
Fixpoint main_loop (probes : list (Params -> bool -> M World verdict))
  (fe_params : Params) (debug : bool) : M World Outcome :=
  match probes with
  | [] => ret (Returned not_common)
  | probe :: rest =>
      v <- probe fe_params debug ;;
      match v with
      | (Some format, filesystem) => ret (Exited 0 (format_line format filesystem))
      | (None, _) => main_loop rest fe_params debug
      end
  end.

(** [main()], from the parsed arguments on. *)
Definition main (args : Args) : M World Outcome :=
  main_loop [probe_bpb; probe_mac; probe_amiga; probe_c64]
            (fluxengine_params args) (args_debug args).

End Probes.

(** ** The specification's reading of the probes

    The definitions of this module follow the words of the design
    document, not the code: fields are read with total functions that
    answer [None] where the buffer has no such field, and every probe is
    a decision on the acquired buffers. *)
Module Spec.

(** "true iff at least one byte is non-zero" *)
Definition hasData (buffer : bytes) : bool :=
  existsb (fun b => negb (byte_int b =? 0)) buffer.

(** The byte at [offset], if the buffer has one there. *)
Definition byteAt (buffer : bytes) (offset : Z) : option Z :=
  if offset <? 0 then None
  else option_map byte_int (nth_error buffer (Z.to_nat offset)).

(** [wordAt]: two bytes, high byte first when [bigEndian]. *)
Definition wordAt (buffer : bytes) (offset : Z) (bigEndian : bool) : option Z :=
  match byteAt buffer offset, byteAt buffer (offset + 1) with
  | Some first, Some second =>
      Some (if bigEndian then 256 * first + second else first + 256 * second)
  | _, _ => None
  end.

(** [asciiAt]: [length] bytes from [offset] on, as characters. *)
Fixpoint asciiAt (buffer : bytes) (offset : Z) (length : nat) : option string :=
  match length with
  | O => Some ""
  | S length' =>
      match byteAt buffer offset, asciiAt buffer (offset + 1) length' with
      | Some b, Some s => Some (String (ascii_of_N (Z.to_N b)) s)
      | _, _ => None
      end
  end.

(** The field is there and holds [v]. *)
Definition holds (field : option Z) (v : Z) : bool :=
  match field with
  | Some x => x =? v
  | None => false
  end.

Definition isText (field : option string) (s : string) : bool :=
  match field with
  | Some x => String.eqb x s
  | None => false
  end.

(** *** 4.3 BPB/FAT *)

Definition candidates (size : MediaSize) : list (string * Z) :=
  match size with
  | Size_3_5 => [("ibm1440", 2880); ("ibm720", 1440)]
  | Size_5_25 => [("ibm1200", 2400); ("ibm360", 720); ("ibm320", 640);
                  ("ibm180", 360); ("ibm160", 320)]
  end.

Definition validSectorsPerCluster (spc : Z) : bool :=
  (spc =? 1) || (spc =? 2) || (spc =? 4) || (spc =? 8) ||
  (spc =? 16) || (spc =? 32) || (spc =? 64) || (spc =? 128).

(** Step 6: the cluster count as a real number, strict thresholds. *)
Definition fatTag (totalLogicalSectors sectorsPerCluster : Z) : string :=
  let clusterCount := (inject_Z totalLogicalSectors / inject_Z sectorsPerCluster)%Q in
  if Qlt_le_dec clusterCount (inject_Z 4085) then "fat12"
  else if Qlt_le_dec clusterCount (inject_Z 65525) then "fat16"
  else "fat32".

(** Steps 1 to 6 on the buffer of one candidate: its verdict, or [None]
    when the candidate is rejected. *)
Definition bpbCandidate (tag : string) (expected : Z) (buffer : bytes)
  : option verdict :=
  if negb (hasData buffer) then None
  else if negb (holds (wordAt buffer 0x1FE false) 0xAA55) then None
  else if negb (holds (byteAt buffer 0) 0xEB || holds (byteAt buffer 0) 0xE9)
  then None
  else
    match wordAt buffer 0x13 false, byteAt buffer 0x0D with
    | Some total, Some spc =>
        if negb (total =? expected) then None
        else if negb (validSectorsPerCluster spc) then None
        else Some (Some tag, Some (fatTag total spc))
    | _, _ => None
    end.

(** *** 4.4 Macintosh *)

(** Step 2, on the [ibm1440] read. *)
Definition macHighDensity (buffer : bytes) : bool :=
  hasData buffer && holds (wordAt buffer 0x400 true) 0x4244.

(** Steps 3 to 7, on the [mac800] read. *)
Definition mac800Verdict (buffer : bytes) : verdict :=
  if negb (hasData buffer) then (None, None)
  else if holds (wordAt buffer 0 true) 0x4C4B then (Some "mac800", Some "hfs")
  else if holds (wordAt buffer 0x400 true) 0x4244 then (Some "mac800", Some "hfs")
  else if holds (wordAt buffer 0x400 true) 0xD2D7 then (Some "mac400", Some "mfs")
  else (Some "mac800", None).

(** *** 4.5 Amiga *)

(** The tag ["DOS"] followed by the character of code [n]. *)
Definition dosTag (n : N) : string :=
  String "D" (String "O" (String "S" (String (ascii_of_N n) ""))).

Definition amigaFilesystem (tag : string) : option string :=
  if String.eqb tag (dosTag 0) then Some "amiga_ofs"
  else if String.eqb tag (dosTag 1) then Some "amiga_ffs"
  else if String.eqb tag (dosTag 2) then Some "amiga_ofs_international"
  else if String.eqb tag (dosTag 3) then Some "amiga_ffs_international"
  else if String.eqb tag (dosTag 4) then Some "amiga_ofs_international_dircache"
  else if String.eqb tag (dosTag 5) then Some "amiga_ffs_international_dircache"
  else None.

Definition amigaVerdict (buffer : bytes) : verdict :=
  if negb (hasData buffer) then (None, None)
  else (Some "amiga",
        match asciiAt buffer 0 4 with
        | Some tag => amigaFilesystem tag
        | None => None
        end).

(** *** 4.6 Commodore 1541 *)

Definition c64Accepts (buffer : bytes) : bool :=
  hasData buffer &&
  holds (byteAt buffer 0x16500) 0x12 &&
  holds (byteAt buffer 0x16501) 0x01 &&
  isText (asciiAt buffer 0x165A5 2) "2A".

Definition c64Verdict (buffer : bytes) : verdict :=
  if c64Accepts buffer then (Some "commodore1541", Some "2A") else (None, None).

End Spec.

(** The BPB/FAT probe as the design document words it: try the
    candidates in table order on their own track-0 read, the first one
    that passes all checks wins, none left means no match. *)
Fixpoint bpbProbe {World : Type} `{Host World} (fe_params : Params)
  (candidates : list (string * Z)) : M World verdict :=
  match candidates with
  | [] => ret (None, None)
  | (tag, expected) :: rest =>
      buffer <- read_track tag 0 fe_params ;;
      match Spec.bpbCandidate tag expected buffer with
      | Some v => ret v
      | None => bpbProbe fe_params rest
      end
  end.

(** Every track image that carries data holds at least [n] bytes. *)
Definition long_reads {World : Type} `{Host World} (fe_params : Params) (n : Z)
  : Prop :=
  forall decoder cylinder w buffer w',
    read_track decoder cylinder fe_params w = (Ok buffer, w') ->
    has_data buffer = true -> n <= len buffer.

(** Every read succeeds and brings back a buffer without a signal. *)
Definition quiet_reads {World : Type} `{Host World} (fe_params : Params) : Prop :=
  forall decoder cylinder w,
    exists buffer w',
      read_track decoder cylinder fe_params w = (Ok buffer, w') /\
      has_data buffer = false.

(** ** A simulated host

    The disk in the simulated drive is a table from decoder name to what
    the capture command does with that decoder: its return code and the
    image it writes.  The world holds the content of the one temporary
    image file, if it exists, and the decoders the capture command was
    run with so far. *)

Definition Disk : Type := dict (Z * bytes).

Record Sim : Type := {
  tmp_image : option bytes;
  captures : list string
}.

Definition sim_start : Sim := {| tmp_image := None; captures := [] |}.

Definition sim_tmp : string := "/tmp/tmpfloppy".

(** A decoder the disk does not list succeeds with an all-zero sector. *)
Definition capture (disk : Disk) (decoder : string) : Z * bytes :=
  match dict_get disk decoder with
  | Some r => r
  | None => (0, repeat x00 512)
  end.

Definition sim_host (disk : Disk) : Host Sim := {|
  mktemp := fun w => (Some sim_tmp, w);
  subprocess_run := fun args w =>
    let decoder := nth 2 args "" in
    let r := capture disk decoder in
    (Some {| returncode := fst r; stdout := "" |},
     {| tmp_image := if fst r =? 0 then Some (snd r) else tmp_image w;
        captures := captures w ++ [decoder] |});
  open_read := fun name w =>
    if String.eqb name (sim_tmp ++ ".img") then (tmp_image w, w) else (None, w);
  unlink := fun name w =>
    if String.eqb name (sim_tmp ++ ".img") then
      match tmp_image w with
      | Some _ => (Some tt, {| tmp_image := None; captures := captures w |})
      | None => (None, w)
      end
    else (None, w)
|}.

(** [buffer] with the bytes [fields] written at [offset]. *)
Definition patch (offset : nat) (fields : bytes) (buffer : bytes) : bytes :=
  firstn offset buffer ++ fields ++ skipn (offset + List.length fields) buffer.

Definition byte_of (n : N) : byte :=
  match Byte.of_N n with
  | Some b => b
  | None => x00
  end.

(** A 512-byte PC boot sector: jump, sectors per cluster, total sectors
    (little-endian), boot signature. *)
Definition boot_sector (total spc : N) : bytes :=
  patch 0 [xeb; x3c; x90]
    (patch 13 [byte_of spc]
       (patch 19 [byte_of (total mod 256); byte_of (total / 256)]
          (patch 510 [x55; xaa] (repeat x00 512)))).

(** A zeroed image of [n] bytes with [fields] at [offset]. *)
Definition image (n : N) (offset : N) (fields : bytes) : bytes :=
  patch (N.to_nat offset) fields (repeat x00 (N.to_nat n)).

Definition params_3_5 : Params :=
  {| device := None; drive := 0; media_size := Size_3_5; forty_track := false |}.

Definition params_5_25 : Params :=
  {| device := None; drive := 0; media_size := Size_5_25; forty_track := true |}.

Definition args_3_5 : Args :=
  {| args_debug := false; args_drive := Drive_A; args_tracks := 80;
     args_size := Size_3_5; args_device := None |}.

Definition args_5_25 : Args :=
  {| args_debug := false; args_drive := Drive_b; args_tracks := 40;
     args_size := Size_5_25; args_device := None |}.

(** A 1.44M FAT12 floppy that the Amiga decoder also answers for. *)
Definition disk_fat_1440 : Disk :=
  [("ibm1440", (0, boot_sector 2880 1));
   ("amiga", (0, image 512 0 [x44; x4f; x53; x01]))].

(** A 720K FAT12 floppy whose high-density read is one stray byte. *)
Definition disk_fat_720_stray : Disk :=
  [("ibm1440", (0, [x01])); ("ibm720", (0, boot_sector 1440 2))].

(** A disk whose every listed read brings back a single non-zero byte. *)
Definition disk_stray : Disk :=
  [("ibm1440", (0, repeat x00 512)); ("ibm720", (0, repeat x00 512));
   ("mac800", (0, [x01])); ("amiga", (0, [x01]));
   ("commodore1541", (0, [x01]))].

(** An 800K HFS floppy. *)
Definition disk_mac_hfs : Disk :=
  [("mac800", (0, image 2048 1024 [x42; x44]))].

(** An Amiga fast-file-system floppy. *)
Definition disk_amiga_ffs : Disk :=
  [("amiga", (0, image 512 0 [x44; x4f; x53; x01]))].

(** A 1541 floppy: directory pointer and DOS version on track 18. *)
Definition disk_c1541 : Disk :=
  [("ibm1200", (0, [])); ("ibm360", (0, [])); ("ibm320", (0, []));
   ("ibm180", (0, [])); ("ibm160", (0, []));
   ("commodore1541",
     (0, patch (N.to_nat 0x16500) [x12; x01]
           (image 0x2ab00 0x165a5 [x32; x41])))].

(** The capture command fails whatever the decoder. *)
Definition disk_absent : Disk :=
  [("ibm1440", (1, [])); ("ibm720", (1, [])); ("mac800", (1, []));
   ("amiga", (1, [])); ("commodore1541", (1, []))].

(** An unformatted disk: every read is all zeroes. *)
Definition disk_blank : Disk := [].

(** A buffer without a signal, or one of at least [n] bytes. *)
Definition long_enough (n : Z) (buffer : bytes) : bool :=
  negb (has_data buffer) || (n <=? len buffer).

(** Every image of the disk, and the sector of an unlisted decoder, is
    [long_enough]. *)
Definition disk_long (n : Z) (disk : Disk) : bool :=
  forallb (fun e => long_enough n (snd (snd e))) disk &&
  long_enough n (repeat x00 512).

(** Every capture of the disk succeeds and brings back zeroes only. *)
Definition disk_quiet (disk : Disk) : bool :=
  forallb (fun e => (fst (snd e) =? 0) && negb (has_data (snd (snd e)))) disk.

(** ** Vocabulary of the further properties *)

(** The verdicts with a format that the probes have for a media size. *)
Definition verdicts (size : MediaSize) : list (string * option string) :=
  match size with
  | Size_3_5 =>
      [("ibm1440", Some "fat12"); ("ibm720", Some "fat12");
       ("ibm1440", Some "hfs"); ("mac800", Some "hfs"); ("mac400", Some "mfs");
       ("mac800", None);
       ("amiga", Some "amiga_ofs"); ("amiga", Some "amiga_ffs");
       ("amiga", Some "amiga_ofs_international");
       ("amiga", Some "amiga_ffs_international");
       ("amiga", Some "amiga_ofs_international_dircache");
       ("amiga", Some "amiga_ffs_international_dircache");
       ("amiga", None)]
  | Size_5_25 =>
      [("ibm1200", Some "fat12"); ("ibm360", Some "fat12");
       ("ibm320", Some "fat12"); ("ibm180", Some "fat12");
       ("ibm160", Some "fat12"); ("commodore1541", Some "2A")]
  end.

(** The command line that [read_track] hands to [subprocess.run]. *)
Definition command_line (decoder : string) (cylinder : Z) (fe_params : Params)
  (tmpfile : string) : list string :=
  ["fluxengine"; "read"; decoder] ++
  (if forty_track fe_params then ["40track_drive"] else []) ++
  ["-s"; ("drive:" ++ str_int (drive fe_params))%string;
   "--output"; tmpfile;
   "--cylinders"; str_int cylinder;
   "--decoder.retries=6"].

(** Any host, made to record every command line it is asked to run. *)
Definition traced {W : Type} (H : Host W) : Host (W * list (list string)) := {|
  mktemp := fun s =>
    let (r, w') := mktemp (fst s) in (r, (w', snd s));
  subprocess_run := fun args s =>
    let (r, w') := subprocess_run args (fst s) in (r, (w', snd s ++ [args]));
  open_read := fun name s =>
    let (r, w') := open_read name (fst s) in (r, (w', snd s));
  unlink := fun name s =>
    let (r, w') := unlink name (fst s) in (r, (w', snd s))
|}.

(** The track reads of a whole run of [main], decoder and cylinder, in
    the order of the probes. *)
Definition track_reads (size : MediaSize) : list (string * Z) :=
  match size with
  | Size_3_5 =>
      [("ibm1440", 0); ("ibm720", 0); ("ibm1440", 0); ("mac800", 0);
       ("amiga", 0)]
  | Size_5_25 =>
      [("ibm1200", 0); ("ibm360", 0); ("ibm320", 0); ("ibm180", 0);
       ("ibm160", 0); ("commodore1541", 17)]
  end.

(** [cmd] is the command line of the read [r], for some image file. *)
Definition is_read (p : Params) (cmd : list string) (r : string * Z) : Prop :=
  exists tmpfile, cmd = command_line (fst r) (snd r) p tmpfile.

(** Wherever it starts, [m] runs the commands of a beginning [ran] of
    the reads [expected] and nothing else, and a result that is [full]
    comes only after all of them. *)
Definition issues {W A : Type} (p : Params) (full : A -> bool)
  (expected : list (string * Z)) (m : M (W * list (list string)) A) : Prop :=
  forall s r s',
    m s = (r, s') ->
    exists (cmds : list (list string)) (ran : list (string * Z)),
      snd s' = snd s ++ cmds /\
      Forall2 (is_read p) cmds ran /\
      (exists rest, expected = ran ++ rest) /\
      match r with
      | Ok a => full a = true -> ran = expected
      | Raise _ => True
      end.

(** A verdict without a format. *)
Definition miss (v : verdict) : bool :=
  match fst v with
  | None => true
  | Some _ => false
  end.

(** [main] came to its end without a verdict. *)
Definition unidentified (o : Outcome) : bool :=
  match o with
  | Returned _ => true
  | Exited _ _ => false
  end.

(** ** The hex dump *)

(** The digits of [f"{n:x}"] for a non-negative [n]. *)
Definition hex_digits (n : Z) : string :=
  HexadecimalString.NilZero.string_of_uint (N.to_hex_uint (Z.to_N n)).

Fixpoint zeroes (n : nat) : string :=
  match n with
  | O => ""
  | S n' => String "0" (zeroes n')
  end.

(** [f"{n:0{width}x}"] for a non-negative [n]: lower-case hexadecimal,
    filled with zeroes up to [width] characters. *)
Definition format_x (width : nat) (n : Z) : string :=
  (zeroes (width - String.length (hex_digits n)) ++ hex_digits n)%string.

Definition newline : string := String "010" "".

(** [chr(b) if 32 <= b <= 127 else '.'] *)
Definition printable (b : Z) : string :=
  if (32 <=? b) && (b <=? 127) then String (chr b) "" else ".".

(** The loop of [dump_data] over the bytes still to come: [addr] and
    [buffer] are the variables of the code, [out] is what has been
    printed so far.  The loop ends at the end of the data or, by
    [break], at the limit. *)
Fixpoint dump_loop (data : list Z) (limit addr : Z) (buffer out : string)
  : string * string :=
  match data with
  | [] => (buffer, out)
  | b :: rest =>
      if limit <=? addr then (buffer, out)
      else
        let out := if addr mod 16 =? 0
                   then (out ++ format_x 4 addr ++ " ")%string
                   else out in
        let out := (out ++ format_x 2 b ++ " ")%string in
        let buffer := (buffer ++ printable b)%string in
        if addr mod 16 =? 15
        then dump_loop rest limit (addr + 1) ""
                       (out ++ "  " ++ buffer ++ newline)%string
        else dump_loop rest limit (addr + 1) buffer out
  end.

(** [dump_data(data, limit=None)]: the text it prints. *)
Definition dump_data (data : bytes) (limit : option Z) : string :=
  let limit := match limit with
               | None => len data
               | Some l => l
               end in
  let (buffer, out) := dump_loop (ints data) limit 0 "" "" in
  match buffer with
  | EmptyString => out
  | _ => (out ++ "  " ++ buffer ++ newline)%string
  end.

(** The strings of a list, one after the other. *)
Definition join (l : list string) : string := fold_right append "" l.

(** The hexadecimal column of a line: two digits and a blank per byte. *)
Definition hex_column (chunk : list Z) : string :=
  join (map (fun b => format_x 2 b ++ " ")%string chunk).

(** The text column of a line: one character per byte. *)
Definition text_column (chunk : list Z) : string :=
  join (map printable chunk).

(** One line of a dump: the address of its first byte, the bytes in
    hexadecimal, two blanks and the bytes as text. *)
Definition dump_line (addr : Z) (chunk : list Z) : string :=
  (format_x 4 addr ++ " " ++ hex_column chunk ++
   "  " ++ text_column chunk ++ newline)%string.

(** The lines of a dump, sixteen bytes each, the last one possibly
    shorter; [n] bounds the number of lines. *)
Fixpoint dump_lines (n : nat) (addr : Z) (data : list Z) : string :=
  match n with
  | O => ""
  | S n' =>
      match data with
      | [] => ""
      | _ => (dump_line addr (firstn 16 data) ++
              dump_lines n' (addr + 16) (skipn 16 data))%string
      end
  end.

(** The run [mt] on a recording host is the run [m] on the host itself,
    apart from the record. *)
Definition erases {W A : Type} (mt : M (W * list (list string)) A) (m : M W A)
  : Prop :=
  forall s, m (fst s) = (fst (mt s), fst (snd (mt s))).

(** ** The fields within reach of a buffer *)

(** The [mac800] buffer holds every field that the Macintosh probe
    consults in it: it has no data, or its first two bytes are the
    boot-block signature, or it holds the 0x402 bytes up to the volume
    signature. *)
Definition mac800_in_bounds (buffer : bytes) : bool :=
  negb (has_data buffer) ||
  Spec.holds (Spec.wordAt buffer 0 true) 0x4C4B ||
  (0x402 <=? len buffer).

(** The track-17 buffer holds every field that the Commodore probe
    consults in it: it has no data, or it holds the byte at 0x16500 and,
    when that byte is 0x12, the byte at 0x16501 and, when that one is
    0x01, the two characters at 0x165A5. *)
Definition c64_in_bounds (buffer : bytes) : bool :=
  negb (has_data buffer) ||
  ((0x16501 <=? len buffer) &&
   (negb (Spec.holds (Spec.byteAt buffer 0x16500) 0x12) ||
    ((0x16502 <=? len buffer) &&
     (negb (Spec.holds (Spec.byteAt buffer 0x16501) 0x01) ||
      (0x165A7 <=? len buffer))))).

(** The track-0 buffers that the candidate loop of the BPB/FAT probe
    acquires from the world [w] on, in order, when every read of the run
    returns a buffer ([None] when one raises).  The run ends with the
    buffer of the first candidate that passes all checks, and with the
    first buffer that has data and is shorter than a boot sector. *)
Fixpoint bpb_buffers {World : Type} `{Host World} (fe_params : Params)
  (candidates : list (string * Z)) (w : World) : option (list bytes) :=
  match candidates with
  | [] => Some []
  | (tag, expected) :: rest =>
      match read_track tag 0 fe_params w with
      | (Ok buffer, w1) =>
          if long_enough 0x200 buffer then
            match Spec.bpbCandidate tag expected buffer with
            | Some _ => Some [buffer]
            | None => option_map (cons buffer) (bpb_buffers fe_params rest w1)
            end
          else Some [buffer]
      | (Raise _, _) => None
      end
  end.

(** Where an exception of a probe comes from: it is the [IndexError] of
    a field read, or the exception of a [read_track] call that left the
    world [w']. *)
Definition index_or_read {World : Type} `{Host World} (fe_params : Params)
  (e : exn) (w' : World) : Prop :=
  e = IndexError \/
  exists decoder cylinder w0,
    read_track decoder cylinder fe_params w0 = (Raise e, w').

(** * Properties *)

(** ** Bytes and results *)

Lemma byte_int_range (b : byte) : 0 <= byte_int b <= 255.
Proof.
  unfold byte_int. pose proof (Byte.to_N_bounded b). lia.
Qed.

Lemma byte_int_zero (b : byte) : byte_int b = 0 <-> b = x00.
Proof.
  split.
  - intros E. unfold byte_int in E.
    assert (Z0 : Byte.to_N b = Byte.to_N x00) by (simpl; lia).
    apply (f_equal Byte.of_N) in Z0.
    rewrite !Byte.of_to_N in Z0. congruence.
  - intros ->. reflexivity.
Qed.

Lemma len_nonneg {A : Type} (l : list A) : 0 <= len l.
Proof. unfold len. lia. Qed.

Lemma byteAt_Some (data : bytes) (i : Z) :
  0 <= i < len data -> exists v, Spec.byteAt data i = Some v /\ 0 <= v <= 255.
Proof.
  intros Hi. unfold Spec.byteAt.
  destruct (Z.ltb_spec i 0) as [Hneg|_]; [lia|].
  destruct (nth_error data (Z.to_nat i)) as [b|] eqn:E.
  - exists (byte_int b). split; [reflexivity | apply byte_int_range].
  - apply nth_error_None in E. unfold len in Hi. lia.
Qed.

Lemma byteAt_None (data : bytes) (i : Z) :
  len data <= i -> Spec.byteAt data i = None.
Proof.
  intros Hi. unfold Spec.byteAt.
  destruct (Z.ltb_spec i 0) as [Hneg|Hpos]; [reflexivity|].
  assert (E : nth_error data (Z.to_nat i) = None).
  { apply nth_error_None. unfold len in Hi. lia. }
  rewrite E. reflexivity.
Qed.

(** Indexing at a non-negative offset reads the byte that is there and
    raises [IndexError] where there is none. *)
Lemma getitem_byteAt (data : bytes) (i : Z) :
  0 <= i ->
  getitem data i =
  match Spec.byteAt data i with
  | Some v => Ok v
  | None => Raise IndexError
  end.
Proof.
  intros Hi. unfold getitem, Spec.byteAt.
  destruct (Z.ltb_spec i 0) as [Hneg|_]; [lia|].
  destruct (Z.ltb_spec i 0) as [Hneg|_]; [lia|].
  destruct (nth_error data (Z.to_nat i)); reflexivity.
Qed.

Lemma get_word_wordAt (data : bytes) (offset : Z) (big_endian : bool) :
  0 <= offset ->
  get_word data offset big_endian =
  match Spec.wordAt data offset big_endian with
  | Some v => Ok v
  | None => Raise IndexError
  end.
Proof.
  intros Ho. unfold get_word, Spec.wordAt.
  rewrite (getitem_byteAt data offset) by lia.
  rewrite (getitem_byteAt data (offset + 1)) by lia.
  destruct big_endian;
    destruct (Spec.byteAt data offset) as [a|]; cbn [rbind]; try reflexivity;
    destruct (Spec.byteAt data (offset + 1)) as [b|]; cbn [rbind];
    try reflexivity; f_equal; lia.
Qed.

Lemma wordAt_Some (data : bytes) (offset : Z) (big_endian : bool) :
  0 <= offset -> offset + 2 <= len data ->
  exists v, Spec.wordAt data offset big_endian = Some v.
Proof.
  intros Ho Hl. unfold Spec.wordAt.
  destruct (byteAt_Some data offset) as [a [-> _]]; [lia|].
  destruct (byteAt_Some data (offset + 1)) as [b [-> _]]; [lia|].
  eauto.
Qed.

Lemma get_string_loop_asciiAt (data : bytes) (n : nat) :
  forall (i : Z) (buffer : string),
    0 <= i ->
    get_string_loop data i n buffer =
    match Spec.asciiAt data i n with
    | Some s => Ok (buffer ++ s)%string
    | None => Raise IndexError
    end.
Proof.
  induction n as [|n IH]; intros i buffer Hi; simpl.
  - f_equal. induction buffer as [|c buffer IHb]; simpl; congruence.
  - rewrite getitem_byteAt by lia.
    destruct (Spec.byteAt data i) as [b|]; simpl; [|reflexivity].
    rewrite IH by lia.
    destruct (Spec.asciiAt data (i + 1) n) as [s|]; [|reflexivity].
    f_equal. unfold chr.
    clear. induction buffer as [|c buffer IHb]; simpl; congruence.
Qed.

Lemma get_string_asciiAt (data : bytes) (offset length : Z) :
  0 <= offset ->
  get_string data offset length =
  match Spec.asciiAt data offset (Z.to_nat length) with
  | Some s => Ok s
  | None => Raise IndexError
  end.
Proof.
  intros Ho. unfold get_string.
  rewrite get_string_loop_asciiAt by assumption.
  destruct (Spec.asciiAt data offset (Z.to_nat length)); reflexivity.
Qed.

Lemma asciiAt_Some (data : bytes) (n : nat) :
  forall offset,
    0 <= offset -> offset + Z.of_nat n <= len data ->
    exists s, Spec.asciiAt data offset n = Some s.
Proof.
  induction n as [|n IH]; intros offset Ho Hl; simpl.
  - eauto.
  - destruct (byteAt_Some data offset) as [b [-> _]]; [lia|].
    destruct (IH (offset + 1)) as [s ->]; [lia | lia |].
    eauto.
Qed.

Lemma wordAt_None (data : bytes) (offset : Z) (big_endian : bool) :
  len data < offset + 2 -> Spec.wordAt data offset big_endian = None.
Proof.
  intros Hl. unfold Spec.wordAt.
  destruct (Spec.byteAt data offset) as [a|] eqn:Ea; [|reflexivity].
  rewrite (byteAt_None data (offset + 1)) by lia. reflexivity.
Qed.

Lemma asciiAt_None (data : bytes) (n : nat) :
  forall offset,
    len data < offset + Z.of_nat (S n) ->
    Spec.asciiAt data offset (S n) = None.
Proof.
  induction n as [|n IH]; intros offset Hl.
  - cbn [Spec.asciiAt]. rewrite byteAt_None by lia. reflexivity.
  - change (Spec.asciiAt data offset (S (S n))) with
      (match Spec.byteAt data offset,
             Spec.asciiAt data (offset + 1) (S n) with
       | Some b, Some s => Some (String (ascii_of_N (Z.to_N b)) s)
       | _, _ => None
       end).
    rewrite IH by lia.
    destruct (Spec.byteAt data offset); reflexivity.
Qed.

(** The emptiness check of the code is the one of the document. *)
Lemma has_data_hasData (data : bytes) : has_data data = Spec.hasData data.
Proof.
  unfold has_data, Spec.hasData, ints, len.
  induction data as [|b data IH]; simpl.
  - reflexivity.
  - destruct (negb (byte_int b =? 0)); simpl.
    + destruct (Z.ltb_spec 0 (Z.pos (Pos.of_succ_nat
        (List.length (filter (fun x => negb (x =? 0)) (map byte_int data))))));
        [reflexivity | lia].
    + exact IH.
Qed.

Lemma hasData_exists (data : bytes) :
  Spec.hasData data = true <-> exists b, In b data /\ b <> x00.
Proof.
  unfold Spec.hasData. rewrite existsb_exists.
  split; intros [b [Hin Hb]]; exists b; split; trivial.
  - intros ->. discriminate Hb.
  - destruct (Z.eqb_spec (byte_int b) 0) as [E|E]; [|reflexivity].
    apply byte_int_zero in E. contradiction.
Qed.

Lemma has_data_length (data : bytes) : has_data data = true -> 1 <= len data.
Proof.
  rewrite has_data_hasData, hasData_exists.
  intros [b [Hin _]]. destruct data; [contradiction|].
  unfold len. simpl. lia.
Qed.

Lemma has_data_repeat_zero (n : nat) : has_data (repeat x00 n) = false.
Proof.
  rewrite has_data_hasData. unfold Spec.hasData.
  induction n as [|n IH]; simpl; [reflexivity | exact IH].
Qed.

Lemma Qltb_lt (q : Q) (n : Z) : Qltb q n = true <-> (q < inject_Z n)%Q.
Proof.
  unfold Qltb. rewrite negb_true_iff.
  destruct (Qle_bool (inject_Z n) q) eqn:E.
  - apply Qle_bool_iff in E. split; [discriminate|].
    intros L. exfalso. exact (Qlt_not_le _ _ L E).
  - split; [|reflexivity]. intros _.
    apply Qnot_le_lt. intros L. apply Qle_bool_iff in L. congruence.
Qed.

Lemma in_tuple_jump (x : Z) :
  in_tuple x [0xeb; 0xe9] = Spec.holds (Some x) 0xEB || Spec.holds (Some x) 0xE9.
Proof.
  unfold in_tuple, Spec.holds, existsb.
  destruct (x =? 0xeb), (x =? 0xe9); reflexivity.
Qed.

Lemma in_tuple_spc (x : Z) :
  in_tuple x [1; 2; 4; 8; 16; 32; 64; 128] = Spec.validSectorsPerCluster x.
Proof.
  unfold in_tuple, Spec.validSectorsPerCluster, existsb.
  destruct (x =? 1), (x =? 2), (x =? 4), (x =? 8), (x =? 16), (x =? 32),
    (x =? 64), (x =? 128); reflexivity.
Qed.

Lemma validSectorsPerCluster_range (x : Z) :
  Spec.validSectorsPerCluster x = true -> 1 <= x <= 128.
Proof.
  unfold Spec.validSectorsPerCluster.
  rewrite !orb_true_iff, !Z.eqb_eq. lia.
Qed.

(** The filesystem chosen by the [if]/[elif] chain of the code is the one
    of the real-number thresholds. *)
Lemma fat_chain_fatTag (total spc : Z) :
  (if Qltb (inject_Z total / inject_Z spc) 4085 then "fat12"
   else if Qltb (inject_Z total / inject_Z spc) 65525 then "fat16"
   else "fat32") = Spec.fatTag total spc.
Proof.
  unfold Spec.fatTag.
  destruct (Qlt_le_dec (inject_Z total / inject_Z spc) (inject_Z 4085)) as [L|L].
  - apply Qltb_lt in L. rewrite L. reflexivity.
  - destruct (Qltb (inject_Z total / inject_Z spc) 4085) eqn:E.
    + apply Qltb_lt in E. exfalso. exact (Qlt_not_le _ _ E L).
    + destruct (Qlt_le_dec (inject_Z total / inject_Z spc) (inject_Z 65525))
        as [L'|L'].
      * apply Qltb_lt in L'. rewrite L'. reflexivity.
      * destruct (Qltb (inject_Z total / inject_Z spc) 65525) eqn:E'.
        -- apply Qltb_lt in E'. exfalso. exact (Qlt_not_le _ _ E' L').
        -- reflexivity.
Qed.

(** A count of at most 2880 sectors in clusters of at least one sector
    stays below the FAT12 threshold. *)
Lemma fatTag_small (total spc : Z) :
  0 <= total <= 2880 -> 1 <= spc -> Spec.fatTag total spc = "fat12".
Proof.
  intros Ht Hs. unfold Spec.fatTag.
  destruct (Qlt_le_dec (inject_Z total / inject_Z spc) (inject_Z 4085)) as [L|L];
    [reflexivity|].
  exfalso.
  assert (P : (0 < inject_Z spc)%Q).
  { unfold Qlt, inject_Z. simpl. lia. }
  assert (E : (inject_Z total / inject_Z spc * inject_Z spc == inject_Z total)%Q).
  { rewrite Qmult_comm. apply Qmult_div_r.
    intros E. rewrite E in P. discriminate P. }
  assert (L' : (inject_Z 4085 * inject_Z spc <= inject_Z total)%Q).
  { rewrite <- E. apply Qmult_le_r; assumption. }
  unfold Qle, Qmult, inject_Z in L'.
  cbn [Qnum Qden Pos.mul] in L'. lia.
Qed.

(** ** The monad *)

Section MonadLaws.

Context {W : Type}.

Lemma bind_ok {A B : Type} (m : M W A) (k : A -> M W B) (w w' : W) (a : A) :
  m w = (Ok a, w') -> bind m k w = k a w'.
Proof. intros E. unfold bind. rewrite E. reflexivity. Qed.

Lemma bind_raise {A B : Type} (m : M W A) (k : A -> M W B) (w w' : W) (e : exn) :
  m w = (Raise e, w') -> bind m k w = (Raise e, w').
Proof. intros E. unfold bind. rewrite E. reflexivity. Qed.

Lemma bind_lift_ok {A B : Type} (a : A) (k : A -> M W B) (w : W) :
  bind (lift (Ok a)) k w = k a w.
Proof. reflexivity. Qed.

Lemma bind_lift_raise {A B : Type} (e : exn) (k : A -> M W B) (w : W) :
  bind (lift (@Raise A e)) k w = (Raise e, w).
Proof. reflexivity. Qed.

End MonadLaws.

(** ** Track acquisition *)

Section Acquisition.

Context {World : Type} `{Host World}.

(** A buffer comes back only from a capture that returned 0, and it is
    the content of the image file: after a failed capture there is no
    buffer at all, not even an empty one. *)
Lemma read_track_ok decoder cylinder p (w w' : World) (buffer : bytes) :
  read_track decoder cylinder p w = (Ok buffer, w') ->
  exists name w1 args cp w2 w3,
    mktemp w = (Some name, w1) /\
    subprocess_run args w1 = (Some cp, w2) /\
    returncode cp = 0 /\
    open_read (name ++ ".img")%string w2 = (Some buffer, w3) /\
    unlink (name ++ ".img")%string w3 = (Some tt, w').
Proof.
  unfold read_track, bind, os, lift, ret.
  destruct (mktemp w) as [[name|] w1] eqn:E1; [|discriminate].
  destruct (subprocess_run _ w1) as [[cp|] w2] eqn:E2; [|discriminate].
  destruct (Z.eqb_spec (returncode cp) 0) as [E0|E0]; [|discriminate].
  destruct (open_read _ w2) as [[content|] w3] eqn:E3; [|discriminate].
  destruct (unlink _ w3) as [[[]|] w4] eqn:E4; [|discriminate].
  simpl. intros E. inversion E; subst.
  do 6 eexists. repeat split; eassumption.
Qed.

(** After a capture that returns a non-zero code, [read_track] raises
    the [TypeError] of [bytearray('')]. *)
Lemma read_track_nonzero_returncode decoder cylinder p (w w1 : World)
  (name : string) :
  mktemp w = (Some name, w1) ->
  (forall args, exists cp w2,
      subprocess_run args w1 = (Some cp, w2) /\ returncode cp <> 0) ->
  exists w2, read_track decoder cylinder p w = (Raise TypeError, w2).
Proof.
  intros E1 Hrun. unfold read_track, bind, os, lift, ret. rewrite E1.
  match goal with
  | |- context [subprocess_run ?args w1] =>
      destruct (Hrun args) as [cp [w2 [E2 Hrc]]]; rewrite E2
  end.
  destruct (Z.eqb_spec (returncode cp) 0) as [E0|_]; [contradiction|].
  exists w2. reflexivity.
Qed.

End Acquisition.

(** ** The probes *)

Section ProbeSteps.

Context {World : Type} `{Host World}.

Variable p : Params.
Variable debug : bool.

(** One turn of the candidate loop on a buffer that is long enough for
    the boot sector: the candidate wins or the loop goes on. *)
Lemma probe_bpb_loop_step (format : string) (expected : Z) (rest : list string)
  (w w1 : World) (buffer : bytes) :
  dict_getitem (bpb_probes (media_size p)) format = Ok expected ->
  read_track format 0 p w = (Ok buffer, w1) ->
  (has_data buffer = true -> 0x200 <= len buffer) ->
  probe_bpb_loop p debug (format :: rest) w =
  match Spec.bpbCandidate format expected buffer with
  | Some v => (Ok v, w1)
  | None => probe_bpb_loop p debug rest w1
  end.
Proof.
  intros Hexp Hread Hlen.
  cbn [probe_bpb_loop]. rewrite (bind_ok _ _ _ _ _ Hread).
  unfold Spec.bpbCandidate.
  rewrite <- has_data_hasData.
  destruct (has_data buffer) eqn:Hd; cbn [negb]; [|reflexivity].
  specialize (Hlen eq_refl).
  destruct (wordAt_Some buffer 0x1fe false) as [sig Esig]; [lia | lia |].
  destruct (byteAt_Some buffer 0) as [jump [Ejump _]]; [lia|].
  destruct (wordAt_Some buffer 0x13 false) as [total Etotal]; [lia | lia |].
  destruct (byteAt_Some buffer 0x0d) as [spc [Espc _]]; [lia|].
  rewrite get_word_wordAt, Esig by lia. rewrite bind_lift_ok.
  rewrite Ejump, Etotal, Espc.
  unfold Spec.holds at 1.
  destruct (sig =? 0xaa55); cbn [negb]; [|reflexivity].
  rewrite getitem_byteAt, Ejump by lia. rewrite bind_lift_ok.
  rewrite in_tuple_jump.
  destruct (Spec.holds (Some jump) 0xEB || Spec.holds (Some jump) 0xE9);
    cbn [negb]; [|reflexivity].
  rewrite get_word_wordAt, Etotal by lia. rewrite bind_lift_ok.
  rewrite Hexp, bind_lift_ok.
  destruct (total =? expected); cbn [negb]; [|reflexivity].
  rewrite getitem_byteAt, Espc by lia. rewrite bind_lift_ok.
  rewrite in_tuple_spc.
  destruct (Spec.validSectorsPerCluster spc) eqn:Hspc; cbn [negb];
    [|reflexivity].
  apply validSectorsPerCluster_range in Hspc.
  unfold truediv.
  destruct (Z.eqb_spec spc 0) as [E0|_]; [lia|].
  rewrite bind_lift_ok, fat_chain_fatTag. reflexivity.
Qed.

(** The [mac800] half of the Macintosh probe on a buffer that reaches
    the volume signature. *)
Lemma probe_mac_800_step (w w2 : World) (buffer : bytes) :
  read_track "mac800" 0 p w = (Ok buffer, w2) ->
  (has_data buffer = true -> 0x402 <= len buffer) ->
  probe_mac_800 p debug w = (Ok (Spec.mac800Verdict buffer), w2).
Proof.
  intros Hread Hlen.
  unfold probe_mac_800. rewrite (bind_ok _ _ _ _ _ Hread).
  unfold Spec.mac800Verdict. rewrite <- has_data_hasData.
  destruct (has_data buffer) eqn:Hd; cbn [negb]; [|reflexivity].
  specialize (Hlen eq_refl).
  destruct (wordAt_Some buffer 0 true) as [boot Eboot]; [lia | lia |].
  destruct (wordAt_Some buffer 0x400 true) as [vol Evol]; [lia | lia |].
  rewrite get_word_wordAt, Eboot by lia. rewrite bind_lift_ok.
  rewrite Evol. unfold Spec.holds.
  destruct (boot =? 0x4c4b); [reflexivity|].
  rewrite get_word_wordAt, Evol by lia. rewrite bind_lift_ok.
  destruct (vol =? 0x4244); [reflexivity|].
  rewrite bind_lift_ok.
  destruct (vol =? 0xd2d7); reflexivity.
Qed.

(** The [ibm1440] half: the volume signature decides between the
    high-density verdict and the [mac800] read. *)
Lemma probe_mac_1440_step (w w1 : World) (buffer : bytes) :
  media_size p = Size_3_5 ->
  read_track "ibm1440" 0 p w = (Ok buffer, w1) ->
  (has_data buffer = true -> 0x402 <= len buffer) ->
  probe_mac p debug w =
  if Spec.macHighDensity buffer
  then (Ok (Some "ibm1440", Some "hfs"), w1)
  else probe_mac_800 p debug w1.
Proof.
  intros Hsize Hread Hlen.
  unfold probe_mac. rewrite Hsize. rewrite (bind_ok _ _ _ _ _ Hread).
  unfold Spec.macHighDensity. rewrite <- has_data_hasData.
  destruct (has_data buffer) eqn:Hd; cbn [andb]; [|reflexivity].
  specialize (Hlen eq_refl).
  destruct (wordAt_Some buffer 0x400 true) as [vol Evol]; [lia | lia |].
  rewrite get_word_wordAt, Evol by lia. rewrite bind_lift_ok.
  unfold Spec.holds. destruct (vol =? 0x4244); reflexivity.
Qed.

Lemma dict_get_fstypes (tag : string) :
  dict_get fstypes tag = Spec.amigaFilesystem tag.
Proof.
  unfold fstypes, Spec.amigaFilesystem, Spec.dosTag. cbn [dict_get].
  rewrite !(String.eqb_sym tag).
  reflexivity.
Qed.

Lemma probe_amiga_step (w w1 : World) (buffer : bytes) :
  media_size p = Size_3_5 ->
  read_track "amiga" 0 p w = (Ok buffer, w1) ->
  (has_data buffer = true -> 4 <= len buffer) ->
  probe_amiga p debug w = (Ok (Spec.amigaVerdict buffer), w1).
Proof.
  intros Hsize Hread Hlen.
  unfold probe_amiga. rewrite Hsize. rewrite (bind_ok _ _ _ _ _ Hread).
  unfold Spec.amigaVerdict. rewrite <- has_data_hasData.
  destruct (has_data buffer) eqn:Hd; cbn [negb]; [|reflexivity].
  specialize (Hlen eq_refl).
  destruct (asciiAt_Some buffer 4 0) as [tag Etag]; [lia | lia |].
  rewrite get_string_asciiAt by lia.
  change (Z.to_nat 4) with 4%nat. rewrite Etag, bind_lift_ok.
  rewrite dict_get_fstypes. reflexivity.
Qed.

Lemma probe_c64_step (w w1 : World) (buffer : bytes) :
  media_size p = Size_5_25 ->
  read_track "commodore1541" 17 p w = (Ok buffer, w1) ->
  (has_data buffer = true -> 0x165a7 <= len buffer) ->
  probe_c64 p debug w = (Ok (Spec.c64Verdict buffer), w1).
Proof.
  intros Hsize Hread Hlen.
  unfold probe_c64. rewrite Hsize. rewrite (bind_ok _ _ _ _ _ Hread).
  unfold Spec.c64Verdict, Spec.c64Accepts. rewrite <- has_data_hasData.
  destruct (has_data buffer) eqn:Hd; cbn [andb]; [|reflexivity].
  specialize (Hlen eq_refl).
  destruct (byteAt_Some buffer 0x16500) as [track [Etrack _]]; [lia|].
  destruct (byteAt_Some buffer 0x16501) as [sector [Esector _]]; [lia|].
  destruct (asciiAt_Some buffer 2 0x165a5) as [version Eversion]; [lia | lia |].
  rewrite getitem_byteAt, Etrack by lia. rewrite bind_lift_ok.
  rewrite Esector, Eversion. unfold Spec.holds, Spec.isText.
  destruct (track =? 0x12); cbn [andb]; [|reflexivity].
  rewrite getitem_byteAt, Esector by lia. rewrite bind_lift_ok.
  destruct (sector =? 0x01); cbn [andb]; [|reflexivity].
  rewrite get_string_asciiAt by lia.
  change (Z.to_nat 2) with 2%nat. rewrite Eversion, bind_lift_ok.
  destruct (String.eqb version "2A"); reflexivity.
Qed.

End ProbeSteps.

(** ** The simulated host *)

Lemma long_enough_spec (n : Z) (buffer : bytes) :
  long_enough n buffer = true -> has_data buffer = true -> n <= len buffer.
Proof.
  unfold long_enough. intros L D. rewrite D in L. cbn [negb orb] in L.
  apply Z.leb_le. exact L.
Qed.

Lemma capture_forall (P : Z * bytes -> Prop) (disk : Disk) :
  Forall (fun e => P (snd e)) disk -> P (0, repeat x00 512) ->
  forall decoder, P (capture disk decoder).
Proof.
  intros Hall Hdefault decoder. unfold capture.
  induction Hall as [|[k r] disk Hr _ IH]; cbn [dict_get].
  - exact Hdefault.
  - destruct (String.eqb k decoder); [exact Hr | exact IH].
Qed.

(** What [read_track] does on the simulated host: the image of the disk
    for a capture that returns 0, the [TypeError] otherwise. *)
Lemma sim_read_track (disk : Disk) (decoder : string) (cylinder : Z)
  (p : Params) (w : Sim) :
  @read_track Sim (sim_host disk) decoder cylinder p w =
  if fst (capture disk decoder) =? 0
  then (Ok (snd (capture disk decoder)),
        {| tmp_image := None; captures := captures w ++ [decoder] |})
  else (Raise TypeError,
        {| tmp_image := tmp_image w; captures := captures w ++ [decoder] |}).
Proof.
  unfold read_track, bind, os, lift, ret.
  cbn [mktemp subprocess_run open_read unlink sim_host].
  assert (D : forall tail,
    nth 2 ((if forty_track p
            then ["fluxengine"; "read"; decoder] ++ ["40track_drive"]
            else ["fluxengine"; "read"; decoder]) ++ tail) "" = decoder).
  { intros tail. destruct (forty_track p); reflexivity. }
  rewrite D. cbn [returncode fst snd].
  destruct (fst (capture disk decoder) =? 0).
  - rewrite String.eqb_refl. cbn [tmp_image captures bytearray].
    reflexivity.
  - reflexivity.
Qed.

Lemma sim_long_reads (disk : Disk) (p : Params) (n : Z) :
  disk_long n disk = true -> @long_reads Sim (sim_host disk) p n.
Proof.
  unfold disk_long. rewrite andb_true_iff, forallb_forall.
  intros [Hall Hdefault] decoder cylinder w buffer w' Hread Hdata.
  rewrite sim_read_track in Hread.
  destruct (fst (capture disk decoder) =? 0); [|discriminate].
  inversion Hread; subst. clear Hread.
  revert Hdata. apply long_enough_spec.
  apply (capture_forall (fun r => long_enough n (snd r) = true)).
  - apply Forall_forall. exact Hall.
  - exact Hdefault.
Qed.

Lemma sim_quiet_reads (disk : Disk) (p : Params) :
  disk_quiet disk = true -> @quiet_reads Sim (sim_host disk) p.
Proof.
  unfold disk_quiet. rewrite forallb_forall.
  intros Hall decoder cylinder w.
  rewrite sim_read_track.
  assert (Q : fst (capture disk decoder) = 0 /\
              has_data (snd (capture disk decoder)) = false).
  { apply (capture_forall (fun r => fst r = 0 /\ has_data (snd r) = false)).
    - apply Forall_forall. intros e He. specialize (Hall e He).
      apply andb_true_iff in Hall. destruct Hall as [Hz Hd].
      apply Z.eqb_eq in Hz. apply negb_true_iff in Hd. auto.
    - split; [reflexivity | apply has_data_repeat_zero]. }
  destruct Q as [Q0 Qd]. rewrite Q0. cbn [Z.eqb].
  eauto.
Qed.

(** ** The probes on buffers of any size *)

Section ProbeReads.

Context {World : Type} `{Host World}.

Variable p : Params.
Variable debug : bool.

Lemma long_enough_false (n : Z) (buffer : bytes) :
  long_enough n buffer = false -> has_data buffer = true /\ len buffer < n.
Proof.
  unfold long_enough. intros E. apply orb_false_iff in E.
  destruct E as [D L]. apply negb_false_iff in D.
  apply Z.leb_gt in L. auto.
Qed.

Lemma wordAt_None_length (data : bytes) (offset : Z) (big_endian : bool) :
  0 <= offset -> Spec.wordAt data offset big_endian = None ->
  len data < offset + 2.
Proof.
  intros Ho E. destruct (Z_lt_le_dec (len data) (offset + 2)) as [L|L];
    [exact L|].
  destruct (wordAt_Some data offset big_endian Ho L) as [v Ev]. congruence.
Qed.

(** One turn of the candidate loop, whatever the size of the buffer:
    a buffer with data that ends before the boot signature raises. *)
Lemma probe_bpb_loop_exact (format : string) (expected : Z)
  (rest : list string) (w w1 : World) (buffer : bytes) :
  dict_getitem (bpb_probes (media_size p)) format = Ok expected ->
  read_track format 0 p w = (Ok buffer, w1) ->
  probe_bpb_loop p debug (format :: rest) w =
  if long_enough 0x200 buffer
  then match Spec.bpbCandidate format expected buffer with
       | Some v => (Ok v, w1)
       | None => probe_bpb_loop p debug rest w1
       end
  else (Raise IndexError, w1).
Proof.
  intros Hexp Hread. destruct (long_enough 0x200 buffer) eqn:L.
  - apply probe_bpb_loop_step; [exact Hexp | exact Hread |].
    apply long_enough_spec. exact L.
  - apply long_enough_false in L. destruct L as [D L].
    cbn [probe_bpb_loop]. rewrite (bind_ok _ _ _ _ _ Hread), D. cbn [negb].
    rewrite get_word_wordAt, wordAt_None by lia. reflexivity.
Qed.

(** The [mac800] half of the Macintosh probe, whatever the size of the
    buffer. *)
Lemma probe_mac_800_exact (w w2 : World) (buffer : bytes) :
  read_track "mac800" 0 p w = (Ok buffer, w2) ->
  probe_mac_800 p debug w =
  if mac800_in_bounds buffer
  then (Ok (Spec.mac800Verdict buffer), w2)
  else (Raise IndexError, w2).
Proof.
  intros Hread. unfold probe_mac_800. rewrite (bind_ok _ _ _ _ _ Hread).
  unfold mac800_in_bounds, Spec.mac800Verdict. rewrite <- has_data_hasData.
  destruct (has_data buffer) eqn:D; cbn [negb orb]; [|reflexivity].
  rewrite get_word_wordAt by lia.
  destruct (Spec.wordAt buffer 0 true) as [boot|] eqn:E0.
  - rewrite bind_lift_ok. unfold Spec.holds at 1 2.
    destruct (boot =? 0x4c4b); cbn [orb]; [reflexivity|].
    rewrite get_word_wordAt by lia.
    destruct (Z.leb_spec 0x402 (len buffer)) as [L|L].
    + destruct (wordAt_Some buffer 0x400 true) as [vol Evol]; [lia | lia |].
      rewrite Evol, bind_lift_ok. unfold Spec.holds.
      destruct (vol =? 0x4244); [reflexivity|].
      rewrite bind_lift_ok.
      destruct (vol =? 0xd2d7); reflexivity.
    + rewrite wordAt_None by lia. reflexivity.
  - apply wordAt_None_length in E0; [|lia].
    unfold Spec.holds. cbn [orb].
    destruct (Z.leb_spec 0x402 (len buffer)); [lia|]. reflexivity.
Qed.

(** The [ibm1440] half of the Macintosh probe, whatever the size of the
    buffer. *)
Lemma probe_mac_1440_exact (w w1 : World) (buffer : bytes) :
  media_size p = Size_3_5 ->
  read_track "ibm1440" 0 p w = (Ok buffer, w1) ->
  probe_mac p debug w =
  if long_enough 0x402 buffer
  then if Spec.macHighDensity buffer
       then (Ok (Some "ibm1440", Some "hfs"), w1)
       else probe_mac_800 p debug w1
  else (Raise IndexError, w1).
Proof.
  intros Hsize Hread. destruct (long_enough 0x402 buffer) eqn:L.
  - apply probe_mac_1440_step; [exact Hsize | exact Hread |].
    apply long_enough_spec. exact L.
  - apply long_enough_false in L. destruct L as [D L].
    unfold probe_mac. rewrite Hsize, (bind_ok _ _ _ _ _ Hread), D.
    rewrite get_word_wordAt, wordAt_None by lia. reflexivity.
Qed.

(** The Amiga probe, whatever the size of the buffer. *)
Lemma probe_amiga_exact (w w1 : World) (buffer : bytes) :
  media_size p = Size_3_5 ->
  read_track "amiga" 0 p w = (Ok buffer, w1) ->
  probe_amiga p debug w =
  if long_enough 4 buffer
  then (Ok (Spec.amigaVerdict buffer), w1)
  else (Raise IndexError, w1).
Proof.
  intros Hsize Hread. destruct (long_enough 4 buffer) eqn:L.
  - apply probe_amiga_step; [exact Hsize | exact Hread |].
    apply long_enough_spec. exact L.
  - apply long_enough_false in L. destruct L as [D L].
    unfold probe_amiga. rewrite Hsize, (bind_ok _ _ _ _ _ Hread), D. cbn [negb].
    rewrite get_string_asciiAt by lia.
    change (Z.to_nat 4) with 4%nat.
    rewrite (asciiAt_None buffer 3 0) by lia. reflexivity.
Qed.

(** The Commodore probe, whatever the size of the buffer. *)
Lemma probe_c64_exact (w w1 : World) (buffer : bytes) :
  media_size p = Size_5_25 ->
  read_track "commodore1541" 17 p w = (Ok buffer, w1) ->
  probe_c64 p debug w =
  if c64_in_bounds buffer
  then (Ok (Spec.c64Verdict buffer), w1)
  else (Raise IndexError, w1).
Proof.
  intros Hsize Hread. unfold probe_c64.
  rewrite Hsize, (bind_ok _ _ _ _ _ Hread).
  unfold c64_in_bounds, Spec.c64Verdict, Spec.c64Accepts.
  rewrite <- has_data_hasData.
  destruct (has_data buffer) eqn:D; cbn [negb orb andb]; [|reflexivity].
  rewrite getitem_byteAt by lia.
  destruct (Z.leb_spec 0x16501 (len buffer)) as [L1|L1]; cbn [andb];
    [|rewrite byteAt_None by lia; reflexivity].
  destruct (byteAt_Some buffer 0x16500) as [track [Etrack _]]; [lia|].
  rewrite Etrack, bind_lift_ok. unfold Spec.holds at 1 3.
  destruct (track =? 0x12); cbn [negb orb andb]; [|reflexivity].
  rewrite getitem_byteAt by lia.
  destruct (Z.leb_spec 0x16502 (len buffer)) as [L2|L2]; cbn [andb];
    [|rewrite byteAt_None by lia; reflexivity].
  destruct (byteAt_Some buffer 0x16501) as [sector [Esector _]]; [lia|].
  rewrite Esector, bind_lift_ok. unfold Spec.holds.
  destruct (sector =? 0x01); cbn [negb orb andb]; [|reflexivity].
  rewrite get_string_asciiAt by lia.
  change (Z.to_nat 2) with 2%nat.
  destruct (Z.leb_spec 0x165A7 (len buffer)) as [L3|L3].
  - destruct (asciiAt_Some buffer 2 0x165a5) as [version Ev]; [lia | lia |].
    rewrite Ev, bind_lift_ok. unfold Spec.isText.
    destruct (String.eqb version "2A"); reflexivity.
  - rewrite (asciiAt_None buffer 1 0x165a5) by lia. reflexivity.
Qed.

End ProbeReads.

(** ** 4.3 The BPB/FAT probe *)

Section BpbProbe.

Context {World : Type} `{Host World}.

Lemma candidates_bpb_probes (size : MediaSize) :
  Spec.candidates size = bpb_probes size.
Proof. destruct size; reflexivity. Qed.

Lemma bpb_probes_lookup (size : MediaSize) (format : string) (expected : Z) :
  In (format, expected) (bpb_probes size) ->
  dict_getitem (bpb_probes size) format = Ok expected.
Proof.
  destruct size; cbn [bpb_probes In]; intros Hin;
    repeat (destruct Hin as [Hin|Hin]; [inversion Hin; reflexivity|]);
    contradiction.
Qed.

Lemma bpb_probes_bound (size : MediaSize) (format : string) (expected : Z) :
  dict_getitem (bpb_probes size) format = Ok expected -> 0 <= expected <= 2880.
Proof.
  destruct size; cbn [bpb_probes dict_getitem]; intros E;
    repeat match type of E with
           | (if ?c then _ else _) = _ => destruct c
           end;
    inversion E; lia.
Qed.

(** The candidate loop of the code is the loop of the document, as long
    as every buffer with data reaches the end of the boot sector. *)
Lemma probe_bpb_loop_bpbProbe (p : Params) (debug : bool) :
  long_reads p 0x200 ->
  forall candidates,
    (forall format expected,
        In (format, expected) candidates ->
        dict_getitem (bpb_probes (media_size p)) format = Ok expected) ->
    forall w,
      probe_bpb_loop p debug (keys candidates) w = bpbProbe p candidates w.
Proof.
  intros Hlong candidates.
  induction candidates as [|[format expected] rest IH]; intros Hlookup w.
  - reflexivity.
  - cbn [keys map fst]. fold (keys rest).
    destruct (read_track format 0 p w) as [[buffer|e] w1] eqn:Hread.
    + rewrite (probe_bpb_loop_step p debug format expected (keys rest)
                 w w1 buffer).
      * cbn [bpbProbe]. rewrite (bind_ok _ _ _ _ _ Hread).
        destruct (Spec.bpbCandidate format expected buffer); [reflexivity|].
        apply IH. intros f n Hin. apply Hlookup. right. exact Hin.
      * apply Hlookup. left. reflexivity.
      * exact Hread.
      * apply (Hlong _ _ _ _ _ Hread).
    + cbn [probe_bpb_loop bpbProbe].
      rewrite !(bind_raise _ _ _ _ _ Hread). reflexivity.
Qed.

End BpbProbe.




(** ** 4.4 The Macintosh probe *)

(** C3, as the code has it: on 5.25-inch media the Macintosh probe
    returns (none, none) without any acquisition.  Otherwise it reads
    track 0 with decoder ibm1440 and returns (ibm1440, hfs) when that
    buffer has data and the big-endian word 0x4244 at 0x400; otherwise it
    reads track 0 with decoder mac800 and returns, in this order,
    (none, none) for a buffer without data, (mac800, hfs) for the word
    0x4C4B at 0, (mac800, hfs) for 0x4244 at 0x400, (mac400, mfs) for
    0xD2D7 at 0x400, and (mac800, none).  There is no size check, and
    the probe raises [IndexError] exactly where a buffer with data ends
    before a field that this order consults: an ibm1440 buffer of fewer
    than 0x402 bytes, and a mac800 buffer of fewer than 0x402 bytes
    whose first two bytes are not 0x4C4B. *)
Theorem probe_mac_decision :
  forall (World : Type) (H : Host World) (p : Params) (debug : bool) (w : World),
    (media_size p = Size_5_25 -> probe_mac p debug w = (Ok (None, None), w)) /\
    (media_size p = Size_3_5 ->
     forall (first : bytes) (w1 : World),
       read_track "ibm1440" 0 p w = (Ok first, w1) ->
       (has_data first = true -> len first < 0x402 ->
        probe_mac p debug w = (Raise IndexError, w1)) /\
       ((has_data first = true -> 0x402 <= len first) ->
        (Spec.macHighDensity first = true ->
         probe_mac p debug w = (Ok (Some "ibm1440", Some "hfs"), w1)) /\
        (Spec.macHighDensity first = false ->
         forall (second : bytes) (w2 : World),
           read_track "mac800" 0 p w1 = (Ok second, w2) ->
           (has_data second = false \/
            Spec.wordAt second 0 true = Some 0x4C4B \/
            0x402 <= len second ->
            probe_mac p debug w = (Ok (Spec.mac800Verdict second), w2)) /\
           (has_data second = true ->
            Spec.wordAt second 0 true <> Some 0x4C4B ->
            len second < 0x402 ->
            probe_mac p debug w = (Raise IndexError, w2))))).
Proof.
  intros World H p debug w. split.
  - intros Hsize. unfold probe_mac. rewrite Hsize. reflexivity.
  - intros Hsize first w1 Hfirst.
    rewrite (probe_mac_1440_exact p debug w w1 first Hsize Hfirst).
    split.
    + intros D L.
      assert (E : long_enough 0x402 first = false).
      { unfold long_enough. rewrite D. cbn [negb orb]. apply Z.leb_gt. exact L. }
      rewrite E. reflexivity.
    + intros Hlen.
      assert (E : long_enough 0x402 first = true).
      { unfold long_enough. destruct (has_data first); cbn [negb orb];
          [apply Z.leb_le; apply Hlen; reflexivity | reflexivity]. }
      rewrite E. split; intros Hhd; rewrite Hhd; [reflexivity|].
      intros second w2 Hsecond.
      rewrite (probe_mac_800_exact p debug w1 w2 second Hsecond).
      assert (Boot : forall v,
                Spec.holds (Spec.wordAt second 0 true) v = true <->
                Spec.wordAt second 0 true = Some v).
      { intros v. unfold Spec.holds.
        destruct (Spec.wordAt second 0 true) as [x|].
        - rewrite Z.eqb_eq. split; [intros ->; reflexivity | intros [= ->]; reflexivity].
        - split; discriminate. }
      split.
      * intros Fit.
        assert (B : mac800_in_bounds second = true).
        { unfold mac800_in_bounds. rewrite !orb_true_iff, negb_true_iff.
          destruct Fit as [D|[B|L]];
            [left; left; exact D | left; right; apply Boot; exact B
             | right; apply Z.leb_le; exact L]. }
        rewrite B. reflexivity.
      * intros D NB L.
        assert (B : mac800_in_bounds second = false).
        { unfold mac800_in_bounds. rewrite D. cbn [negb orb].
          apply orb_false_iff. split.
          - destruct (Spec.holds (Spec.wordAt second 0 true) 0x4C4B) eqn:Eh;
              [|reflexivity].
            apply Boot in Eh. contradiction.
          - apply Z.leb_gt. exact L. }
        rewrite B. reflexivity.
Qed.

(** A [mac800] read of two bytes, the HFS boot-block signature: the
    probe answers from them and reads no further. *)
Lemma probe_mac_decision_witness :
  let host := sim_host [("mac800", (0, [x4c; x4b]))] in
  let first := repeat x00 512 in
  let second := [x4c; x4b] in
  let w1 := {| tmp_image := None; captures := ["ibm1440"] |} in
  let w2 := {| tmp_image := None; captures := ["ibm1440"; "mac800"] |} in
  media_size params_3_5 = Size_3_5 /\
  @read_track Sim host "ibm1440" 0 params_3_5 sim_start = (Ok first, w1) /\
  (has_data first = true -> 0x402 <= len first) /\
  Spec.macHighDensity first = false /\
  @read_track Sim host "mac800" 0 params_3_5 w1 = (Ok second, w2) /\
  (has_data second = false \/
   Spec.wordAt second 0 true = Some 0x4C4B \/
   0x402 <= len second) /\
  @probe_mac Sim host params_3_5 false sim_start =
  (Ok (Spec.mac800Verdict second), w2) /\
  Spec.mac800Verdict second = (Some "mac800", Some "hfs").
Proof.
  intros host first second w1 w2.
  assert (S : media_size params_3_5 = Size_3_5) by reflexivity.
  assert (R1 : @read_track Sim host "ibm1440" 0 params_3_5 sim_start
               = (Ok first, w1)) by (vm_compute; reflexivity).
  assert (L1 : has_data first = true -> 0x402 <= len first)
    by (apply long_enough_spec; vm_compute; reflexivity).
  assert (D : Spec.macHighDensity first = false) by (vm_compute; reflexivity).
  assert (R2 : @read_track Sim host "mac800" 0 params_3_5 w1
               = (Ok second, w2)) by (vm_compute; reflexivity).
  assert (F : has_data second = false \/
              Spec.wordAt second 0 true = Some 0x4C4B \/
              0x402 <= len second) by (right; left; reflexivity).
  repeat (split; [assumption|]).
  split; [|vm_compute; reflexivity].
  exact (proj1 (proj2 (proj2 (proj2
           (probe_mac_decision Sim host params_3_5 false sim_start)
           S first w1 R1) L1) D second w2 R2) F).
Defined.

(** C3 as the document states it, for buffers of any size, fails: after
    an empty high-density read, a [mac800] read of one stray byte has no
    signature, yet the probe raises [IndexError] where the document
    returns (mac800, none). *)
Lemma probe_mac_short_buffer :
  ~ (forall (World : Type) (H : Host World) (p : Params) (debug : bool)
            (w : World),
        (media_size p = Size_5_25 -> probe_mac p debug w = (Ok (None, None), w)) /\
        (media_size p = Size_3_5 ->
         forall (first : bytes) (w1 : World),
           read_track "ibm1440" 0 p w = (Ok first, w1) ->
           (Spec.macHighDensity first = true ->
            probe_mac p debug w = (Ok (Some "ibm1440", Some "hfs"), w1)) /\
           (Spec.macHighDensity first = false ->
            forall (second : bytes) (w2 : World),
              read_track "mac800" 0 p w1 = (Ok second, w2) ->
              probe_mac p debug w = (Ok (Spec.mac800Verdict second), w2)))).
Proof.
  intros C.
  destruct (C Sim (sim_host disk_stray) params_3_5 false sim_start) as [_ C2].
  specialize (C2 eq_refl (repeat x00 512)
                {| tmp_image := None; captures := ["ibm1440"] |}).
  destruct C2 as [_ C2]; [vm_compute; reflexivity|].
  specialize (C2 ltac:(vm_compute; reflexivity) [x01]
                {| tmp_image := None; captures := ["ibm1440"; "mac800"] |}
                ltac:(vm_compute; reflexivity)).
  vm_compute in C2. discriminate C2.
Qed.

(** ** 4.5 The Amiga probe *)

(** C4, as the code has it: on 5.25-inch media the Amiga probe returns
    (none, none); otherwise it reads track 0 with decoder amiga, returns
    (none, none) for a buffer without data and, for every buffer with
    data, the format amiga with the filesystem that the table gives for
    the four characters at offset 0 (the six tags DOS\0 to DOS\5), none
    for any other tag -- provided the buffer with data holds the four
    bytes of the tag. *)
Theorem probe_amiga_decision :
  forall (World : Type) (H : Host World) (p : Params) (debug : bool) (w : World),
    (media_size p = Size_5_25 -> probe_amiga p debug w = (Ok (None, None), w)) /\
    (media_size p = Size_3_5 ->
     forall (buffer : bytes) (w1 : World),
       read_track "amiga" 0 p w = (Ok buffer, w1) ->
       (has_data buffer = true -> 4 <= len buffer) ->
       probe_amiga p debug w = (Ok (Spec.amigaVerdict buffer), w1) /\
       (has_data buffer = true ->
        exists filesystem,
          probe_amiga p debug w = (Ok (Some "amiga", filesystem), w1))).
Proof.
  intros World H p debug w. split.
  - intros Hsize. unfold probe_amiga. rewrite Hsize. reflexivity.
  - intros Hsize buffer w1 Hread Hlen.
    rewrite (probe_amiga_step p debug w w1 buffer Hsize Hread Hlen).
    split; [reflexivity|].
    intros Hd. unfold Spec.amigaVerdict.
    rewrite <- has_data_hasData, Hd. cbn [negb]. eauto.
Qed.

(** An Amiga fast-file-system floppy. *)
Lemma probe_amiga_decision_witness :
  let host := sim_host disk_amiga_ffs in
  let buffer := image 512 0 [x44; x4f; x53; x01] in
  let w1 := {| tmp_image := None; captures := ["amiga"] |} in
  media_size params_3_5 = Size_3_5 /\
  @read_track Sim host "amiga" 0 params_3_5 sim_start = (Ok buffer, w1) /\
  (has_data buffer = true -> 4 <= len buffer) /\
  @probe_amiga Sim host params_3_5 false sim_start =
  (Ok (Spec.amigaVerdict buffer), w1) /\
  Spec.amigaVerdict buffer = (Some "amiga", Some "amiga_ffs").
Proof.
  intros host buffer w1.
  assert (S : media_size params_3_5 = Size_3_5) by reflexivity.
  assert (R : @read_track Sim host "amiga" 0 params_3_5 sim_start
              = (Ok buffer, w1)) by (vm_compute; reflexivity).
  assert (L : has_data buffer = true -> 4 <= len buffer)
    by (apply long_enough_spec; vm_compute; reflexivity).
  repeat (split; [assumption|]).
  split.
  - exact (proj1 (proj2 (probe_amiga_decision Sim host params_3_5 false
                           sim_start) S buffer w1 R L)).
  - vm_compute. reflexivity.
Defined.

(** C4 as the document states it, for every buffer with data, fails: on
    a buffer of one non-zero byte the probe raises [IndexError] instead
    of returning the format amiga. *)
Lemma probe_amiga_short_buffer :
  ~ (forall (World : Type) (H : Host World) (p : Params) (debug : bool)
            (w : World),
        (media_size p = Size_5_25 ->
         probe_amiga p debug w = (Ok (None, None), w)) /\
        (media_size p = Size_3_5 ->
         forall (buffer : bytes) (w1 : World),
           read_track "amiga" 0 p w = (Ok buffer, w1) ->
           probe_amiga p debug w = (Ok (Spec.amigaVerdict buffer), w1) /\
           (has_data buffer = true ->
            exists filesystem,
              probe_amiga p debug w = (Ok (Some "amiga", filesystem), w1)))).
Proof.
  intros C.
  destruct (C Sim (sim_host disk_stray) params_3_5 false sim_start) as [_ C2].
  destruct (C2 eq_refl [x01] {| tmp_image := None; captures := ["amiga"] |})
    as [C3 _]; [vm_compute; reflexivity|].
  vm_compute in C3. discriminate C3.
Qed.

(** ** 4.6 The Commodore 1541 probe *)

(** C5, as the code has it: on 3.5-inch media the Commodore probe
    returns (none, none) and attempts no acquisition.  On 5.25-inch media
    it reads track 17 with decoder commodore1541 and consults, in this
    order, the data of the buffer, the byte at 0x16500, only when that
    is 0x12 the byte at 0x16501, and only when that is 0x01 the two
    characters at 0x165A5.  It returns (commodore1541, "2A") exactly
    when the buffer has data, 0x12, 0x01 and "2A" in these places, and
    (none, none) in every other case in which the fields it consults
    are in the buffer.  There is no size check: a buffer with data that
    ends before a field that this order consults raises [IndexError]. *)
Theorem probe_c64_decision :
  forall (World : Type) (H : Host World) (p : Params) (debug : bool) (w : World),
    (media_size p = Size_3_5 -> probe_c64 p debug w = (Ok (None, None), w)) /\
    (media_size p = Size_5_25 ->
     forall (buffer : bytes) (w1 : World),
       read_track "commodore1541" 17 p w = (Ok buffer, w1) ->
       (c64_in_bounds buffer = true ->
        (Spec.c64Accepts buffer = true ->
         probe_c64 p debug w = (Ok (Some "commodore1541", Some "2A"), w1)) /\
        (Spec.c64Accepts buffer = false ->
         probe_c64 p debug w = (Ok (None, None), w1))) /\
       (c64_in_bounds buffer = false ->
        probe_c64 p debug w = (Raise IndexError, w1))).
Proof.
  intros World H p debug w. split.
  - intros Hsize. unfold probe_c64. rewrite Hsize. reflexivity.
  - intros Hsize buffer w1 Hread.
    rewrite (probe_c64_exact p debug w w1 buffer Hsize Hread).
    split; intros B; rewrite B; [|reflexivity].
    unfold Spec.c64Verdict.
    split; intros Ha; rewrite Ha; reflexivity.
Qed.

(** A track-17 read that ends with the byte at 0x16500, which is not
    0x12: the probe reads that byte, no further, and has no verdict. *)
Lemma probe_c64_decision_witness :
  let buffer := image 0x16501 0x16500 [x11] in
  let host := sim_host [("commodore1541", (0, buffer))] in
  let w1 := {| tmp_image := None; captures := ["commodore1541"] |} in
  media_size params_5_25 = Size_5_25 /\
  @read_track Sim host "commodore1541" 17 params_5_25 sim_start
  = (Ok buffer, w1) /\
  c64_in_bounds buffer = true /\
  Spec.c64Accepts buffer = false /\
  @probe_c64 Sim host params_5_25 false sim_start = (Ok (None, None), w1).
Proof.
  intros buffer host w1.
  assert (S : media_size params_5_25 = Size_5_25) by reflexivity.
  assert (R : @read_track Sim host "commodore1541" 17 params_5_25 sim_start
              = (Ok buffer, w1)) by (unfold host; rewrite sim_read_track;
                                     reflexivity).
  assert (B : c64_in_bounds buffer = true) by (vm_compute; reflexivity).
  assert (A : Spec.c64Accepts buffer = false) by (vm_compute; reflexivity).
  repeat (split; [assumption|]).
  exact (proj2 (proj1 (proj2 (probe_c64_decision Sim host params_5_25 false
                                sim_start) S buffer w1 R) B) A).
Defined.

(** C5 as the document states it, for buffers of any size, fails: a
    track-17 read of one stray byte passes no check, yet the probe
    raises [IndexError] where the document returns (none, none). *)
Lemma probe_c64_short_buffer :
  ~ (forall (World : Type) (H : Host World) (p : Params) (debug : bool)
            (w : World),
        (media_size p = Size_3_5 -> probe_c64 p debug w = (Ok (None, None), w)) /\
        (media_size p = Size_5_25 ->
         forall (buffer : bytes) (w1 : World),
           read_track "commodore1541" 17 p w = (Ok buffer, w1) ->
           (Spec.c64Accepts buffer = true ->
            probe_c64 p debug w = (Ok (Some "commodore1541", Some "2A"), w1)) /\
           (Spec.c64Accepts buffer = false ->
            probe_c64 p debug w = (Ok (None, None), w1)))).
Proof.
  intros C.
  destruct (C Sim (sim_host disk_stray) params_5_25 false sim_start) as [_ C2].
  destruct (C2 eq_refl [x01]
              {| tmp_image := None; captures := ["commodore1541"] |})
    as [_ C3]; [vm_compute; reflexivity|].
  specialize (C3 ltac:(vm_compute; reflexivity)).
  vm_compute in C3. discriminate C3.
Qed.

(** ** 4.7 The pipeline *)

Section Pipeline.

Context {World : Type} `{Host World}.

Lemma main_loop_hit (probe : Params -> bool -> M World verdict)
  (rest : list (Params -> bool -> M World verdict))
  (p : Params) (debug : bool) (w w1 : World)
  (format : string) (filesystem : option string) :
  probe p debug w = (Ok (Some format, filesystem), w1) ->
  main_loop (probe :: rest) p debug w =
  (Ok (Exited 0 (format_line format filesystem)), w1).
Proof.
  intros E. cbn [main_loop]. rewrite (bind_ok _ _ _ _ _ E). reflexivity.
Qed.

Lemma main_loop_miss (probe : Params -> bool -> M World verdict)
  (rest : list (Params -> bool -> M World verdict))
  (p : Params) (debug : bool) (w w1 : World) (filesystem : option string) :
  probe p debug w = (Ok (None, filesystem), w1) ->
  main_loop (probe :: rest) p debug w = main_loop rest p debug w1.
Proof.
  intros E. cbn [main_loop]. rewrite (bind_ok _ _ _ _ _ E). reflexivity.
Qed.

Lemma format_line_not_common (format : string) (filesystem : option string) :
  format_line format filesystem <> not_common.
Proof.
  unfold format_line, not_common. cbn [append]. discriminate.
Qed.

End Pipeline.

Lemma string_length_append (a b : string) :
  String.length (a ++ b) = (String.length a + String.length b)%nat.
Proof.
  induction a as [|c a IH]; cbn [append String.length];
    [reflexivity | rewrite IH; reflexivity].
Qed.

(** C1: [main] runs the four probes in the order BPB/FAT, Macintosh,
    Amiga, Commodore 1541 on one set of parameters.  The first probe that
    returns a format ends the run: the line printed is
    [Format: <format>, Filesystem: <filesystem>] with the format and the
    filesystem of that verdict ([None] for no filesystem), the exit
    status is 0, and no later probe touches the drive (the world is the
    one that probe left).  When every probe returns no format, the line
    [Not a common format or it is corrupt] is printed instead, which is
    the line of no verdict. *)
Theorem main_first_verdict :
  forall (World : Type) (H : Host World) (args : Args) (w : World),
    let p := fluxengine_params args in
    let debug := args_debug args in
    let report := fun (format : string) (filesystem : option string) =>
      Exited 0 ("Format: " ++ format ++ ", Filesystem: " ++
                match filesystem with
                | Some name => name
                | None => "None"
                end)%string in
    (forall format filesystem w1,
        probe_bpb p debug w = (Ok (Some format, filesystem), w1) ->
        main args w = (Ok (report format filesystem), w1)) /\
    (forall fs1 w1 format filesystem w2,
        probe_bpb p debug w = (Ok (None, fs1), w1) ->
        probe_mac p debug w1 = (Ok (Some format, filesystem), w2) ->
        main args w = (Ok (report format filesystem), w2)) /\
    (forall fs1 w1 fs2 w2 format filesystem w3,
        probe_bpb p debug w = (Ok (None, fs1), w1) ->
        probe_mac p debug w1 = (Ok (None, fs2), w2) ->
        probe_amiga p debug w2 = (Ok (Some format, filesystem), w3) ->
        main args w = (Ok (report format filesystem), w3)) /\
    (forall fs1 w1 fs2 w2 fs3 w3 format filesystem w4,
        probe_bpb p debug w = (Ok (None, fs1), w1) ->
        probe_mac p debug w1 = (Ok (None, fs2), w2) ->
        probe_amiga p debug w2 = (Ok (None, fs3), w3) ->
        probe_c64 p debug w3 = (Ok (Some format, filesystem), w4) ->
        main args w = (Ok (report format filesystem), w4)) /\
    (forall fs1 w1 fs2 w2 fs3 w3 fs4 w4,
        probe_bpb p debug w = (Ok (None, fs1), w1) ->
        probe_mac p debug w1 = (Ok (None, fs2), w2) ->
        probe_amiga p debug w2 = (Ok (None, fs3), w3) ->
        probe_c64 p debug w3 = (Ok (None, fs4), w4) ->
        main args w =
        (Ok (Returned "Not a common format or it is corrupt"), w4)) /\
    (forall format filesystem,
        report format filesystem
        <> Exited 0 "Not a common format or it is corrupt" /\
        report format filesystem
        <> Returned "Not a common format or it is corrupt") /\
    (forall format format' filesystem,
        report format filesystem = report format' filesystem ->
        format = format').
Proof.
  intros World H args w p debug report. unfold main. fold p. fold debug.
  assert (R : forall format filesystem,
             report format filesystem
             = Exited 0 (format_line format filesystem)) by reflexivity.
  split; [|split; [|split; [|split; [|split; [|split]]]]].
  - intros format filesystem w1 B. rewrite R. apply main_loop_hit. exact B.
  - intros fs1 w1 format filesystem w2 B Mc.
    rewrite (main_loop_miss _ _ _ _ _ _ _ B), R.
    apply main_loop_hit. exact Mc.
  - intros fs1 w1 fs2 w2 format filesystem w3 B Mc A.
    rewrite (main_loop_miss _ _ _ _ _ _ _ B), (main_loop_miss _ _ _ _ _ _ _ Mc), R.
    apply main_loop_hit. exact A.
  - intros fs1 w1 fs2 w2 fs3 w3 format filesystem w4 B Mc A C.
    rewrite (main_loop_miss _ _ _ _ _ _ _ B), (main_loop_miss _ _ _ _ _ _ _ Mc),
      (main_loop_miss _ _ _ _ _ _ _ A), R.
    apply main_loop_hit. exact C.
  - intros fs1 w1 fs2 w2 fs3 w3 fs4 w4 B Mc A C.
    rewrite (main_loop_miss _ _ _ _ _ _ _ B), (main_loop_miss _ _ _ _ _ _ _ Mc),
      (main_loop_miss _ _ _ _ _ _ _ A), (main_loop_miss _ _ _ _ _ _ _ C).
    reflexivity.
  - intros format filesystem. split; [|discriminate].
    unfold report. cbn [append]. discriminate.
  - intros format format' filesystem E. unfold report in E.
    injection E as E.
    revert format' E.
    induction format as [|c format IH]; intros [|c' format'] E;
      cbn [append] in E.
    + reflexivity.
    + exfalso. injection E as Ec E.
      apply (f_equal String.length) in E.
      rewrite !string_length_append in E. cbn [String.length] in E. lia.
    + exfalso. injection E as Ec E.
      apply (f_equal String.length) in E.
      rewrite !string_length_append in E. cbn [String.length] in E. lia.
    + injection E as -> E. f_equal. apply IH. exact E.
Qed.

(** A FAT12 floppy whose Amiga read would answer too: the BPB/FAT probe
    runs first, its verdict is reported and only its capture is run. *)
Lemma main_first_verdict_witness :
  let host := sim_host disk_fat_1440 in
  let w1 := {| tmp_image := None; captures := ["ibm1440"] |} in
  @probe_bpb Sim host (fluxengine_params args_3_5) (args_debug args_3_5)
    sim_start = (Ok (Some "ibm1440", Some "fat12"), w1) /\
  @main Sim host args_3_5 sim_start =
  (Ok (Exited 0 "Format: ibm1440, Filesystem: fat12"), w1).
Proof.
  intros host w1.
  assert (B : @probe_bpb Sim host (fluxengine_params args_3_5)
                (args_debug args_3_5) sim_start
              = (Ok (Some "ibm1440", Some "fat12"), w1))
    by (vm_compute; reflexivity).
  split; [exact B|].
  exact (proj1 (main_first_verdict Sim host args_3_5 sim_start)
           "ibm1440" (Some "fat12") w1 B).
Defined.

(** ** Verdicts *)

Section Verdicts.

Context {World : Type} `{Host World}.

Lemma bind_lift {A B : Type} (r : result A) (k : A -> M World B) (w : World) :
  bind (lift r) k w =
  match r with
  | Ok a => k a w
  | Raise e => (Raise e, w)
  end.
Proof. destruct r; reflexivity. Qed.

(** Whatever the candidate loop returns is either no verdict at all or
    one of its formats with the filesystem fat12. *)
Lemma probe_bpb_loop_verdict (p : Params) (debug : bool) (formats : list string) :
  forall (w w' : World) (format filesystem : option string),
    probe_bpb_loop p debug formats w = (Ok (format, filesystem), w') ->
    (format = None /\ filesystem = None) \/
    (exists name, In name formats /\ format = Some name /\
                  filesystem = Some "fat12").
Proof.
  induction formats as [|name rest IH]; intros w w' format filesystem E.
  - inversion E. left. auto.
  - assert (Next : forall w1,
      probe_bpb_loop p debug rest w1 = (Ok (format, filesystem), w') ->
      (format = None /\ filesystem = None) \/
      (exists name', In name' (name :: rest) /\ format = Some name' /\
                     filesystem = Some "fat12")).
    { intros w1 E1. destruct (IH _ _ _ _ E1) as [N|[name' [Hin N]]].
      - left. exact N.
      - right. exists name'. split; [right; exact Hin | exact N]. }
    cbn [probe_bpb_loop] in E. unfold bind at 1 in E.
    destruct (read_track name 0 p w) as [[data|e] w1]; [|discriminate].
    destruct (negb (has_data data)); [exact (Next _ E)|].
    rewrite bind_lift in E.
    destruct (get_word data 0x1fe false) as [signature|e]; [|discriminate].
    destruct (signature =? 0xaa55); [|exact (Next _ E)].
    rewrite bind_lift in E.
    destruct (getitem data 0) as [jump|e]; [|discriminate].
    destruct (in_tuple jump [0xeb; 0xe9]); [|exact (Next _ E)].
    rewrite bind_lift in E.
    destruct (get_word data 0x13 false) as [total|e]; [|discriminate].
    rewrite bind_lift in E.
    destruct (dict_getitem (bpb_probes (media_size p)) name)
      as [expected|e] eqn:Hexp; [|discriminate].
    destruct (Z.eqb_spec total expected) as [Htotal|_]; [|exact (Next _ E)].
    rewrite bind_lift in E.
    destruct (getitem data 0x0d) as [spc|e]; [|discriminate].
    rewrite in_tuple_spc in E.
    destruct (Spec.validSectorsPerCluster spc) eqn:Hspc; cbn [negb] in E;
      [|exact (Next _ E)].
    apply validSectorsPerCluster_range in Hspc.
    apply bpb_probes_bound in Hexp.
    unfold truediv in E.
    destruct (Z.eqb_spec spc 0) as [E0|_]; [lia|].
    rewrite bind_lift_ok, fat_chain_fatTag, fatTag_small in E by lia.
    inversion E. right. exists name. split; [left; reflexivity | auto].
Qed.

Lemma probe_mac_800_verdict (p : Params) (debug : bool) (w w' : World)
  (filesystem : option string) :
  probe_mac_800 p debug w = (Ok (None, filesystem), w') -> filesystem = None.
Proof.
  unfold probe_mac_800, bind at 1.
  destruct (read_track "mac800" 0 p w) as [[data|e] w1]; [|discriminate].
  destruct (negb (has_data data)); [intros E; inversion E; reflexivity|].
  rewrite bind_lift.
  destruct (get_word data 0 true) as [boot|e]; [|discriminate].
  destruct (boot =? 0x4c4b); [discriminate|].
  rewrite bind_lift.
  destruct (get_word data 0x400 true) as [volume|e]; [|discriminate].
  destruct (volume =? 0x4244); [discriminate|].
  rewrite bind_lift_ok.
  destruct (volume =? 0xd2d7); discriminate.
Qed.

Lemma probe_mac_verdict (p : Params) (debug : bool) (w w' : World)
  (filesystem : option string) :
  probe_mac p debug w = (Ok (None, filesystem), w') -> filesystem = None.
Proof.
  unfold probe_mac.
  destruct (media_size p); [|intros E; inversion E; reflexivity].
  unfold bind at 1.
  destruct (read_track "ibm1440" 0 p w) as [[data|e] w1]; [|discriminate].
  destruct (has_data data); [|apply probe_mac_800_verdict].
  rewrite bind_lift.
  destruct (get_word data 0x400 true) as [volume|e]; [|discriminate].
  destruct (volume =? 0x4244); [discriminate | apply probe_mac_800_verdict].
Qed.

Lemma probe_amiga_verdict (p : Params) (debug : bool) (w w' : World)
  (filesystem : option string) :
  probe_amiga p debug w = (Ok (None, filesystem), w') -> filesystem = None.
Proof.
  unfold probe_amiga.
  destruct (media_size p); [|intros E; inversion E; reflexivity].
  unfold bind at 1.
  destruct (read_track "amiga" 0 p w) as [[data|e] w1]; [|discriminate].
  destruct (negb (has_data data)); [intros E; inversion E; reflexivity|].
  rewrite bind_lift.
  destruct (get_string data 0 4) as [fstype|e]; discriminate.
Qed.

Lemma probe_c64_verdict (p : Params) (debug : bool) (w w' : World)
  (filesystem : option string) :
  probe_c64 p debug w = (Ok (None, filesystem), w') -> filesystem = None.
Proof.
  unfold probe_c64.
  destruct (media_size p); [intros E; inversion E; reflexivity|].
  unfold bind at 1.
  destruct (read_track "commodore1541" 17 p w) as [[data|e] w1];
    [|discriminate].
  destruct (has_data data); [|intros E; inversion E; reflexivity].
  rewrite bind_lift.
  destruct (getitem data 0x16500) as [track|e]; [|discriminate].
  destruct (track =? 0x12); [|intros E; inversion E; reflexivity].
  rewrite bind_lift.
  destruct (getitem data 0x16501) as [sector|e]; [|discriminate].
  destruct (sector =? 0x01); [|intros E; inversion E; reflexivity].
  rewrite bind_lift.
  destruct (get_string data 0x165a5 2) as [version|e]; [|discriminate].
  destruct (String.eqb version "2A"); [discriminate|].
  intros E. inversion E. reflexivity.
Qed.

(** What the probe loop of [main] reports comes from a probe that
    returned a format. *)
Lemma main_loop_report (probes : list (Params -> bool -> M World verdict))
  (p : Params) (debug : bool) :
  forall (w w' : World) (o : Outcome),
    main_loop probes p debug w = (Ok o, w') ->
    o = Returned not_common \/
    exists probe w0 w1 format filesystem,
      In probe probes /\
      probe p debug w0 = (Ok (Some format, filesystem), w1) /\
      w1 = w' /\
      o = Exited 0 (format_line format filesystem).
Proof.
  induction probes as [|probe rest IH]; intros w w' o E.
  - inversion E. left. reflexivity.
  - cbn [main_loop] in E. unfold bind in E.
    destruct (probe p debug w) as [[[[format|] filesystem]|e] w1] eqn:P;
      [| |discriminate].
    + inversion E; subst. right.
      exists probe, w, w', format, filesystem.
      repeat split; [left; reflexivity | exact P].
    + destruct (IH _ _ _ E) as [R|[probe' [w0 [w2 [f [fs [Hin R]]]]]]].
      * left. exact R.
      * right. exists probe', w0, w2, f, fs.
        split; [right; exact Hin | exact R].
Qed.

End Verdicts.

(** C6: every verdict of the four probes with no format has no
    filesystem either, and what [main] reports is either the fallback
    line or the line of a verdict with a format: no filesystem is ever
    paired with a missing format. *)
Theorem verdict_format_first :
  forall (World : Type) (H : Host World) (p : Params) (debug : bool)
         (w w' : World) (filesystem : option string),
    (probe_bpb p debug w = (Ok (None, filesystem), w') -> filesystem = None) /\
    (probe_mac p debug w = (Ok (None, filesystem), w') -> filesystem = None) /\
    (probe_amiga p debug w = (Ok (None, filesystem), w') -> filesystem = None) /\
    (probe_c64 p debug w = (Ok (None, filesystem), w') -> filesystem = None) /\
    (forall (args : Args) (o : Outcome),
        main args w = (Ok o, w') ->
        o = Returned not_common \/
        exists format fs, o = Exited 0 (format_line format fs)).
Proof.
  intros World H p debug w w' filesystem. repeat split.
  - intros E. unfold probe_bpb in E.
    destruct (probe_bpb_loop_verdict _ _ _ _ _ _ _ E)
      as [[_ N]|[name [_ [N _]]]]; [exact N | discriminate N].
  - apply probe_mac_verdict.
  - apply probe_amiga_verdict.
  - apply probe_c64_verdict.
  - intros args o E. unfold main in E.
    destruct (main_loop_report _ _ _ _ _ _ E)
      as [R|[probe [w0 [w1 [format [fs [_ [_ [_ R]]]]]]]]].
    + left. exact R.
    + right. exists format, fs. exact R.
Qed.

(** On a blank floppy the Macintosh probe returns no format, and no
    filesystem with it. *)
Lemma verdict_format_first_witness :
  let host := sim_host disk_blank in
  let w' := {| tmp_image := None; captures := ["ibm1440"; "mac800"] |} in
  @probe_mac Sim host params_3_5 false sim_start = (Ok (None, None), w') /\
  (None : option string) = None.
Proof.
  intros host w'.
  assert (E : @probe_mac Sim host params_3_5 false sim_start
              = (Ok (None, None), w')) by (vm_compute; reflexivity).
  split; [exact E|].
  exact (proj1 (proj2 (verdict_format_first Sim host params_3_5 false
                         sim_start w' None)) E).
Defined.

(** C10: whenever the BPB/FAT probe returns a format, its filesystem is
    fat12: every expected sector count of both tables is at most 2880
    and a valid sectors-per-cluster value is at least 1, so the cluster
    count stays below 4085 and neither fat16 nor fat32 is ever
    returned. *)
Theorem probe_bpb_fat12 :
  forall (World : Type) (H : Host World) (p : Params) (debug : bool)
         (w w' : World) (format : string) (filesystem : option string),
    (probe_bpb p debug w = (Ok (Some format, filesystem), w') ->
     filesystem = Some "fat12") /\
    (forall size name expected,
        In (name, expected) (bpb_probes size) -> expected <= 2880) /\
    (forall total spc,
        0 <= total <= 2880 -> Spec.validSectorsPerCluster spc = true ->
        Spec.fatTag total spc = "fat12").
Proof.
  intros World H p debug w w' format filesystem. repeat split.
  - intros E. unfold probe_bpb in E.
    destruct (probe_bpb_loop_verdict _ _ _ _ _ _ _ E)
      as [[N _]|[name [_ [_ N]]]]; [discriminate N | exact N].
  - intros size name expected Hin.
    apply bpb_probes_lookup in Hin. apply bpb_probes_bound in Hin. lia.
  - intros total spc Ht Hs. apply validSectorsPerCluster_range in Hs.
    apply fatTag_small; lia.
Qed.

(** A 720K boot sector with two sectors per cluster, after a blank
    high-density read. *)
Lemma probe_bpb_fat12_witness :
  let host := sim_host [("ibm720", (0, boot_sector 1440 2))] in
  let w' := {| tmp_image := None; captures := ["ibm1440"; "ibm720"] |} in
  @probe_bpb Sim host params_3_5 false sim_start
  = (Ok (Some "ibm720", Some "fat12"), w') /\
  Some "fat12" = Some "fat12".
Proof.
  intros host w'.
  assert (E : @probe_bpb Sim host params_3_5 false sim_start
              = (Ok (Some "ibm720", Some "fat12"), w'))
    by (vm_compute; reflexivity).
  split; [exact E|].
  exact (proj1 (probe_bpb_fat12 Sim host params_3_5 false sim_start w'
                  "ibm720" (Some "fat12")) E).
Defined.

(** ** Buffers without a signal, and the bounds of the reads *)

Section Signal.

Context {World : Type} `{Host World}.

Variable p : Params.
Variable debug : bool.

Lemma probe_bpb_loop_skip (format : string) (rest : list string)
  (w w1 : World) (buffer : bytes) :
  read_track format 0 p w = (Ok buffer, w1) ->
  has_data buffer = false ->
  probe_bpb_loop p debug (format :: rest) w = probe_bpb_loop p debug rest w1.
Proof.
  intros R D. cbn [probe_bpb_loop].
  rewrite (bind_ok _ _ _ _ _ R), D. reflexivity.
Qed.

Lemma probe_mac_skip (w w1 : World) (buffer : bytes) :
  media_size p = Size_3_5 ->
  read_track "ibm1440" 0 p w = (Ok buffer, w1) ->
  has_data buffer = false ->
  probe_mac p debug w = probe_mac_800 p debug w1.
Proof.
  intros S R D. unfold probe_mac.
  rewrite S, (bind_ok _ _ _ _ _ R), D. reflexivity.
Qed.

Lemma probe_mac_800_empty (w w1 : World) (buffer : bytes) :
  read_track "mac800" 0 p w = (Ok buffer, w1) ->
  has_data buffer = false ->
  probe_mac_800 p debug w = (Ok (None, None), w1).
Proof.
  intros R D. unfold probe_mac_800.
  rewrite (bind_ok _ _ _ _ _ R), D. reflexivity.
Qed.

Lemma probe_amiga_empty (w w1 : World) (buffer : bytes) :
  media_size p = Size_3_5 ->
  read_track "amiga" 0 p w = (Ok buffer, w1) ->
  has_data buffer = false ->
  probe_amiga p debug w = (Ok (None, None), w1).
Proof.
  intros S R D. unfold probe_amiga.
  rewrite S, (bind_ok _ _ _ _ _ R), D. reflexivity.
Qed.

Lemma probe_c64_empty (w w1 : World) (buffer : bytes) :
  media_size p = Size_5_25 ->
  read_track "commodore1541" 17 p w = (Ok buffer, w1) ->
  has_data buffer = false ->
  probe_c64 p debug w = (Ok (None, None), w1).
Proof.
  intros S R D. unfold probe_c64.
  rewrite S, (bind_ok _ _ _ _ _ R), D. reflexivity.
Qed.

Lemma probe_bpb_loop_quiet (formats : list string) :
  quiet_reads p ->
  forall w, fst (probe_bpb_loop p debug formats w) = Ok (None, None).
Proof.
  intros Q. induction formats as [|format rest IH]; intros w.
  - reflexivity.
  - destruct (Q format 0 w) as [buffer [w1 [R D]]].
    rewrite (probe_bpb_loop_skip format rest w w1 buffer R D). apply IH.
Qed.

Lemma probe_mac_quiet :
  quiet_reads p -> forall w, fst (probe_mac p debug w) = Ok (None, None).
Proof.
  intros Q w. destruct (media_size p) eqn:S.
  - destruct (Q "ibm1440" 0 w) as [first [w1 [R1 D1]]].
    destruct (Q "mac800" 0 w1) as [second [w2 [R2 D2]]].
    rewrite (probe_mac_skip w w1 first S R1 D1).
    rewrite (probe_mac_800_empty w1 w2 second R2 D2). reflexivity.
  - unfold probe_mac. rewrite S. reflexivity.
Qed.

Lemma probe_amiga_quiet :
  quiet_reads p -> forall w, fst (probe_amiga p debug w) = Ok (None, None).
Proof.
  intros Q w. destruct (media_size p) eqn:S.
  - destruct (Q "amiga" 0 w) as [buffer [w1 [R D]]].
    rewrite (probe_amiga_empty w w1 buffer S R D). reflexivity.
  - unfold probe_amiga. rewrite S. reflexivity.
Qed.

Lemma probe_c64_quiet :
  quiet_reads p -> forall w, fst (probe_c64 p debug w) = Ok (None, None).
Proof.
  intros Q w. destruct (media_size p) eqn:S.
  - unfold probe_c64. rewrite S. reflexivity.
  - destruct (Q "commodore1541" 17 w) as [buffer [w1 [R D]]].
    rewrite (probe_c64_empty w w1 buffer S R D). reflexivity.
Qed.

End Signal.

(** C7: [has_data] answers true exactly for a buffer with a non-zero
    byte, so false for the empty buffer and for a buffer of zeroes; and a
    probe that acquires such a buffer reads no field from it: the BPB/FAT
    probe skips the candidate, the Macintosh probe goes from the
    high-density read to the [mac800] read and gives no verdict on that
    one, the Amiga and Commodore probes give no verdict; when every
    read of the drive is without a signal, every probe returns
    (none, none). *)
Theorem no_signal_no_verdict :
  forall (World : Type) (H : Host World) (p : Params) (debug : bool),
    (forall data, has_data data = true <-> exists b, In b data /\ b <> x00) /\
    has_data [] = false /\
    (forall n, has_data (repeat x00 n) = false) /\
    (forall format rest w buffer w1,
        read_track format 0 p w = (Ok buffer, w1) ->
        has_data buffer = false ->
        probe_bpb_loop p debug (format :: rest) w =
        probe_bpb_loop p debug rest w1) /\
    (forall w buffer w1,
        media_size p = Size_3_5 ->
        read_track "ibm1440" 0 p w = (Ok buffer, w1) ->
        has_data buffer = false ->
        probe_mac p debug w = probe_mac_800 p debug w1) /\
    (forall w buffer w1,
        read_track "mac800" 0 p w = (Ok buffer, w1) ->
        has_data buffer = false ->
        probe_mac_800 p debug w = (Ok (None, None), w1)) /\
    (forall w buffer w1,
        media_size p = Size_3_5 ->
        read_track "amiga" 0 p w = (Ok buffer, w1) ->
        has_data buffer = false ->
        probe_amiga p debug w = (Ok (None, None), w1)) /\
    (forall w buffer w1,
        media_size p = Size_5_25 ->
        read_track "commodore1541" 17 p w = (Ok buffer, w1) ->
        has_data buffer = false ->
        probe_c64 p debug w = (Ok (None, None), w1)) /\
    (quiet_reads p ->
     forall w,
       fst (probe_bpb p debug w) = Ok (None, None) /\
       fst (probe_mac p debug w) = Ok (None, None) /\
       fst (probe_amiga p debug w) = Ok (None, None) /\
       fst (probe_c64 p debug w) = Ok (None, None)).
Proof.
  intros World H p debug.
  split; [intros data; rewrite has_data_hasData; apply hasData_exists|].
  split; [reflexivity|].
  split; [apply has_data_repeat_zero|].
  split; [intros format rest w buffer w1; apply probe_bpb_loop_skip|].
  split; [intros w buffer w1; apply probe_mac_skip|].
  split; [intros w buffer w1; apply probe_mac_800_empty|].
  split; [intros w buffer w1; apply probe_amiga_empty|].
  split; [intros w buffer w1; apply probe_c64_empty|].
  intros Q w. repeat split.
  - unfold probe_bpb. apply probe_bpb_loop_quiet. exact Q.
  - apply probe_mac_quiet. exact Q.
  - apply probe_amiga_quiet. exact Q.
  - apply probe_c64_quiet. exact Q.
Qed.

(** An unformatted floppy: every read is all zeroes, no probe has a
    verdict. *)
Lemma no_signal_no_verdict_witness :
  let host := sim_host disk_blank in
  @quiet_reads Sim host params_3_5 /\
  fst (@probe_bpb Sim host params_3_5 false sim_start) = Ok (None, None) /\
  fst (@probe_mac Sim host params_3_5 false sim_start) = Ok (None, None) /\
  fst (@probe_amiga Sim host params_3_5 false sim_start) = Ok (None, None) /\
  fst (@probe_c64 Sim host params_3_5 false sim_start) = Ok (None, None).
Proof.
  intros host.
  assert (Q : @quiet_reads Sim host params_3_5)
    by (apply sim_quiet_reads; reflexivity).
  split; [exact Q|].
  exact (proj2 (proj2 (proj2 (proj2 (proj2 (proj2 (proj2 (proj2
           (no_signal_no_verdict Sim host params_3_5 false))))))))
           Q sim_start).
Defined.

Section Bounds.

Context {World : Type} `{Host World}.

Variable p : Params.
Variable debug : bool.

Lemma long_enough_false_iff (n : Z) (buffer : bytes) :
  long_enough n buffer = false <-> has_data buffer = true /\ len buffer < n.
Proof.
  split.
  - apply long_enough_false.
  - intros [D L]. unfold long_enough. rewrite D. cbn [negb orb].
    apply Z.leb_gt. exact L.
Qed.

(** The candidate loop raises [IndexError] exactly when one of the
    buffers it acquires has data and ends before the boot signature. *)
Lemma probe_bpb_loop_buffers (candidates : list (string * Z)) :
  (forall format expected,
      In (format, expected) candidates ->
      dict_getitem (bpb_probes (media_size p)) format = Ok expected) ->
  forall (w : World) (buffers : list bytes),
    bpb_buffers p candidates w = Some buffers ->
    (fst (probe_bpb_loop p debug (keys candidates) w) = Raise IndexError <->
     Exists (fun buffer => has_data buffer = true /\ len buffer < 0x200)
            buffers).
Proof.
  induction candidates as [|[tag expected] rest IH];
    intros Hlookup w buffers; cbn [bpb_buffers].
  - intros [= <-]. cbn [keys map probe_bpb_loop ret fst].
    split; [discriminate | intros E; inversion E].
  - cbn [keys map fst]. fold (keys rest).
    destruct (read_track tag 0 p w) as [[buffer|e] w1] eqn:R; [|discriminate].
    rewrite (probe_bpb_loop_exact p debug tag expected (keys rest) w w1 buffer
               (Hlookup tag expected (or_introl eq_refl)) R).
    destruct (long_enough 0x200 buffer) eqn:L.
    + assert (NL : ~ (has_data buffer = true /\ len buffer < 0x200)).
      { intros C. apply long_enough_false_iff in C. congruence. }
      destruct (Spec.bpbCandidate tag expected buffer) as [v|].
      * intros [= <-]. cbn [fst]. split; [discriminate|].
        intros E. inversion E as [? ? C|? ? C]; subst;
          [contradiction | inversion C].
      * destruct (bpb_buffers p rest w1) as [l|] eqn:B; [|discriminate].
        cbn [option_map]. intros [= <-].
        rewrite (IH (fun f e Hin => Hlookup f e (or_intror Hin)) w1 l B).
        split; [intros E; right; exact E|].
        intros E. inversion E; subst; [contradiction | assumption].
    + intros [= <-]. cbn [fst]. split; [|reflexivity].
      intros _. left. apply long_enough_false_iff. exact L.
Qed.

End Bounds.

(** C8, as the code has it: [has_data] is the only check before the
    field reads, and it promises one non-zero byte, no length.  In a run
    whose reads return buffers, a probe reads past the end of a buffer,
    and raises [IndexError], exactly when a buffer it acquires has data
    and ends before a field the probe consults in it: before 0x200
    bytes for a BPB/FAT candidate; before 0x402 bytes for the ibm1440
    read of the Macintosh probe, and for its mac800 read unless the
    first two bytes are 0x4C4B; before 4 bytes for the Amiga probe; for
    the Commodore probe before the byte at 0x16500, or the byte at
    0x16501 when the first is 0x12, or the end of the characters at
    0x165A5 when the second is 0x01.  The probes that read nothing for
    the media size raise nothing. *)
Theorem probes_read_in_bounds :
  forall (World : Type) (H : Host World) (p : Params) (debug : bool) (w : World),
    (forall data, has_data data = true -> 1 <= len data) /\
    (forall buffers,
        bpb_buffers p (bpb_probes (media_size p)) w = Some buffers ->
        (fst (probe_bpb p debug w) = Raise IndexError <->
         Exists (fun buffer => has_data buffer = true /\ len buffer < 0x200)
                buffers)) /\
    (media_size p = Size_3_5 ->
     forall first w1,
       read_track "ibm1440" 0 p w = (Ok first, w1) ->
       (has_data first = true -> len first < 0x402 ->
        fst (probe_mac p debug w) = Raise IndexError) /\
       ((has_data first = true -> 0x402 <= len first) ->
        (Spec.macHighDensity first = true ->
         fst (probe_mac p debug w) <> Raise IndexError) /\
        (Spec.macHighDensity first = false ->
         forall second w2,
           read_track "mac800" 0 p w1 = (Ok second, w2) ->
           (fst (probe_mac p debug w) = Raise IndexError <->
            has_data second = true /\
            Spec.wordAt second 0 true <> Some 0x4C4B /\
            len second < 0x402)))) /\
    (media_size p = Size_3_5 ->
     forall buffer w1,
       read_track "amiga" 0 p w = (Ok buffer, w1) ->
       (fst (probe_amiga p debug w) = Raise IndexError <->
        has_data buffer = true /\ len buffer < 4)) /\
    (media_size p = Size_5_25 ->
     forall buffer w1,
       read_track "commodore1541" 17 p w = (Ok buffer, w1) ->
       (fst (probe_c64 p debug w) = Raise IndexError <->
        c64_in_bounds buffer = false)) /\
    (media_size p = Size_5_25 ->
     probe_mac p debug w = (Ok (None, None), w) /\
     probe_amiga p debug w = (Ok (None, None), w)) /\
    (media_size p = Size_3_5 ->
     probe_c64 p debug w = (Ok (None, None), w)).
Proof.
  intros World H p debug w.
  split; [apply has_data_length|].
  split.
  { intros buffers B. unfold probe_bpb.
    apply probe_bpb_loop_buffers; [|exact B].
    intros format expected. apply bpb_probes_lookup. }
  split.
  { intros Hsize first w1 R1.
    rewrite (probe_mac_1440_exact p debug w w1 first Hsize R1).
    split.
    - intros D L.
      rewrite (proj2 (long_enough_false_iff 0x402 first) (conj D L)).
      reflexivity.
    - intros Hlen.
      assert (E : long_enough 0x402 first = true).
      { unfold long_enough. destruct (has_data first); cbn [negb orb];
          [apply Z.leb_le; apply Hlen; reflexivity | reflexivity]. }
      rewrite E. split; intros Hhd; rewrite Hhd; [discriminate|].
      intros second w2 R2.
      rewrite (probe_mac_800_exact p debug w1 w2 second R2).
      assert (Boot : Spec.holds (Spec.wordAt second 0 true) 0x4C4B = false <->
                     Spec.wordAt second 0 true <> Some 0x4C4B).
      { unfold Spec.holds. destruct (Spec.wordAt second 0 true) as [x|].
        - rewrite Z.eqb_neq. split; [intros N [= ->]; contradiction|].
          intros N ->. apply N. reflexivity.
        - split; [discriminate | reflexivity]. }
      unfold mac800_in_bounds.
      destruct (has_data second); cbn [negb orb].
      + destruct (Spec.holds (Spec.wordAt second 0 true) 0x4C4B) eqn:Eh;
          cbn [orb fst].
        * split; [discriminate|]. intros [_ [N _]].
          apply Boot in N. discriminate N.
        * destruct (Z.leb_spec 0x402 (len second)); cbn [fst].
          -- split; [discriminate | intros [_ [_ L]]; lia].
          -- split; [|reflexivity]. intros _.
             split; [reflexivity|]. split; [apply Boot; reflexivity | assumption].
      + cbn [fst]. split; [discriminate | intros [D _]; discriminate D]. }
  split.
  { intros Hsize buffer w1 R.
    rewrite (probe_amiga_exact p debug w w1 buffer Hsize R).
    rewrite <- long_enough_false_iff.
    destruct (long_enough 4 buffer); cbn [fst];
      split; try discriminate; reflexivity. }
  split.
  { intros Hsize buffer w1 R.
    rewrite (probe_c64_exact p debug w w1 buffer Hsize R).
    destruct (c64_in_bounds buffer); cbn [fst];
      split; try discriminate; reflexivity. }
  split.
  { intros Hsize. unfold probe_mac, probe_amiga. rewrite Hsize.
    split; reflexivity. }
  intros Hsize. unfold probe_c64. rewrite Hsize. reflexivity.
Qed.

(** A 3.5-inch floppy whose high-density read is one stray byte: the
    candidate loop acquires that buffer alone and raises on it. *)
Lemma probes_read_in_bounds_witness :
  let host := sim_host disk_fat_720_stray in
  @bpb_buffers Sim host params_3_5 (bpb_probes (media_size params_3_5))
    sim_start = Some [[x01]] /\
  (fst (@probe_bpb Sim host params_3_5 false sim_start) = Raise IndexError <->
   Exists (fun buffer => has_data buffer = true /\ len buffer < 0x200)
          [[x01]]).
Proof.
  intros host.
  assert (B : @bpb_buffers Sim host params_3_5
                (bpb_probes (media_size params_3_5)) sim_start = Some [[x01]])
    by (vm_compute; reflexivity).
  split; [exact B|].
  exact (proj1 (proj2 (probes_read_in_bounds Sim host params_3_5 false
                         sim_start)) [[x01]] B).
Defined.

(** C8 as the document states it fails: after [has_data] has let a
    buffer of one non-zero byte through, the Amiga probe asks for four
    characters and the Commodore probe for the byte at 0x16500, and
    both raise [IndexError]. *)
Lemma probes_read_out_of_bounds :
  ~ (forall (World : Type) (H : Host World) (p : Params) (debug : bool)
            (w : World),
        fst (probe_bpb p debug w) <> Raise IndexError /\
        fst (probe_mac p debug w) <> Raise IndexError /\
        fst (probe_amiga p debug w) <> Raise IndexError /\
        fst (probe_c64 p debug w) <> Raise IndexError).
Proof.
  intros C.
  destruct (C Sim (sim_host disk_stray) params_3_5 false sim_start)
    as [_ [_ [A _]]].
  apply A. vm_compute. reflexivity.
Qed.

(** C9 does not hold of the code: when the capture command returns a
    non-zero code, [read_track] sets [data = ''] and [bytearray('')]
    raises [TypeError]; no empty buffer reaches the probe, and the
    exception ends [main] at the first probe, with no other capture
    run. *)
Theorem read_track_failed_capture :
  @read_track Sim (sim_host disk_absent) "ibm1440" 0 params_3_5 sim_start
  = (Raise TypeError, {| tmp_image := None; captures := ["ibm1440"] |}) /\
  @main Sim (sim_host disk_absent) args_3_5 sim_start
  = (Raise TypeError, {| tmp_image := None; captures := ["ibm1440"] |}).
Proof.
  split; vm_compute; reflexivity.
Qed.

(** * Further properties of the code *)

(** ** The field decoder on its own *)

Lemma getitem_range (data : bytes) (i v : Z) :
  getitem data i = Ok v -> 0 <= v <= 255.
Proof.
  unfold getitem.
  destruct ((if i <? 0 then i + len data else i) <? 0); [discriminate|].
  destruct (nth_error data _) as [b|]; [|discriminate].
  intros E. inversion E. apply byte_int_range.
Qed.

Lemma getitem_raises (data : bytes) (i : Z) (e : exn) :
  getitem data i = Raise e -> e = IndexError.
Proof.
  unfold getitem.
  destruct ((if i <? 0 then i + len data else i) <? 0);
    [intros E; inversion E; reflexivity|].
  destruct (nth_error data _) as [b|]; [discriminate|].
  intros E. inversion E. reflexivity.
Qed.

Lemma wordAt_range (data : bytes) (offset : Z) (big_endian : bool) (v : Z) :
  0 <= offset -> Spec.wordAt data offset big_endian = Some v -> 0 <= v <= 65535.
Proof.
  intros Ho. unfold Spec.wordAt.
  destruct (Z_lt_le_dec offset (len data)) as [L1|L1];
    [|rewrite (byteAt_None data offset) by lia; discriminate].
  destruct (Z_lt_le_dec (offset + 1) (len data)) as [L2|L2].
  - destruct (byteAt_Some data offset) as [a [-> Ra]]; [lia|].
    destruct (byteAt_Some data (offset + 1)) as [b [-> Rb]]; [lia|].
    destruct big_endian; cbv iota;
      [remember (256 * a + b) as x | remember (a + 256 * b) as x];
      intros [= <-]; lia.
  - rewrite (byteAt_None data (offset + 1)) by lia.
    destruct (Spec.byteAt data offset); discriminate.
Qed.

(** X1: [get_word] at a non-negative offset returns a 16-bit value when the
    two bytes are in the buffer, and raises [IndexError] otherwise. *)
Theorem get_word_bounds :
  forall (data : bytes) (offset : Z) (big_endian : bool),
    0 <= offset ->
    (offset + 2 <= len data ->
     exists v, get_word data offset big_endian = Ok v /\ 0 <= v <= 65535) /\
    (len data < offset + 2 ->
     get_word data offset big_endian = Raise IndexError).
Proof.
  intros data offset big_endian Ho. rewrite get_word_wordAt by assumption.
  split; intros Hl.
  - destruct (wordAt_Some data offset big_endian Ho Hl) as [v E].
    rewrite E. exists v. split; [reflexivity|].
    exact (wordAt_range data offset big_endian v Ho E).
  - rewrite wordAt_None by assumption. reflexivity.
Qed.

Lemma get_word_bounds_witness :
  0 <= 1 /\ 1 + 2 <= len [x00; x34; x12] /\
  exists v, get_word [x00; x34; x12] 1 false = Ok v /\ 0 <= v <= 65535.
Proof.
  assert (O : 0 <= 1) by lia.
  assert (L : 1 + 2 <= len [x00; x34; x12]) by (vm_compute; discriminate).
  split; [exact O|]. split; [exact L|].
  exact (proj1 (get_word_bounds [x00; x34; x12] 1 false O) L).
Defined.

(** X2: The two byte orders of [get_word] read the same two bytes: the
    big-endian value is the little-endian one with its bytes swapped. *)
Theorem get_word_byte_swap :
  forall (data : bytes) (offset v : Z),
    get_word data offset false = Ok v ->
    get_word data offset true = Ok (v mod 256 * 256 + v / 256).
Proof.
  intros data offset v. unfold get_word.
  destruct (getitem data offset) as [a|e] eqn:Ea; [|discriminate].
  destruct (getitem data (offset + 1)) as [b|e] eqn:Eb; [|discriminate].
  cbn [rbind]. intros E. inversion E. subst v.
  apply getitem_range in Ea. apply getitem_range in Eb.
  f_equal.
  replace ((a + b * 256) mod 256) with a
    by (rewrite Z.mod_add by lia; symmetry; apply Z.mod_small; lia).
  replace ((a + b * 256) / 256) with b
    by (rewrite Z.div_add by lia; rewrite Z.div_small by lia; reflexivity).
  reflexivity.
Qed.

Lemma get_word_byte_swap_witness :
  get_word [x34; x12] 0 false = Ok 0x1234 /\
  get_word [x34; x12] 0 true = Ok (0x1234 mod 256 * 256 + 0x1234 / 256).
Proof.
  assert (E : get_word [x34; x12] 0 false = Ok 0x1234) by reflexivity.
  split; [exact E|].
  exact (get_word_byte_swap [x34; x12] 0 0x1234 E).
Defined.

Lemma byteAt_app (pre rest : bytes) (k : Z) :
  0 <= k -> Spec.byteAt (pre ++ rest) (len pre + k) = Spec.byteAt rest k.
Proof.
  intros Hk. unfold Spec.byteAt, len.
  destruct (Z.ltb_spec (Z.of_nat (List.length pre) + k) 0); [lia|].
  destruct (Z.ltb_spec k 0); [lia|].
  rewrite nth_error_app2 by lia.
  replace (Z.to_nat (Z.of_nat (List.length pre) + k) - List.length pre)%nat
    with (Z.to_nat k) by lia.
  reflexivity.
Qed.

(** X3: [get_dword] on four bytes anywhere in a buffer: the little-endian
    value counts the first byte lowest, the big-endian one highest. *)
Theorem get_dword_bytes :
  forall (pre post : bytes) (b0 b1 b2 b3 : byte),
    get_dword (pre ++ b0 :: b1 :: b2 :: b3 :: post) (len pre) false =
    Ok (byte_int b0 + 256 * byte_int b1 + 65536 * byte_int b2
        + 16777216 * byte_int b3) /\
    get_dword (pre ++ b0 :: b1 :: b2 :: b3 :: post) (len pre) true =
    Ok (16777216 * byte_int b0 + 65536 * byte_int b1 + 256 * byte_int b2
        + byte_int b3).
Proof.
  intros pre post b0 b1 b2 b3.
  pose proof (len_nonneg pre) as Hp.
  assert (E0 : Spec.byteAt (pre ++ b0 :: b1 :: b2 :: b3 :: post) (len pre)
               = Some (byte_int b0)).
  { rewrite <- (Z.add_0_r (len pre)) at 1. rewrite byteAt_app by lia.
    reflexivity. }
  assert (E1 : Spec.byteAt (pre ++ b0 :: b1 :: b2 :: b3 :: post) (len pre + 1)
               = Some (byte_int b1)).
  { rewrite byteAt_app by lia. reflexivity. }
  assert (E2 : Spec.byteAt (pre ++ b0 :: b1 :: b2 :: b3 :: post) (len pre + 2)
               = Some (byte_int b2)).
  { rewrite byteAt_app by lia. reflexivity. }
  assert (E3 : Spec.byteAt (pre ++ b0 :: b1 :: b2 :: b3 :: post)
                 (len pre + 2 + 1) = Some (byte_int b3)).
  { replace (len pre + 2 + 1) with (len pre + 3) by lia.
    rewrite byteAt_app by lia. reflexivity. }
  unfold get_dword.
  rewrite !get_word_wordAt by lia. unfold Spec.wordAt.
  rewrite E0, E1, E2, E3. cbn [rbind].
  split; f_equal; lia.
Qed.

(** X4: [get_dword] at a non-negative offset returns a 32-bit value when
    the four bytes are in the buffer, and raises [IndexError]
    otherwise. *)
Theorem get_dword_bounds :
  forall (data : bytes) (offset : Z) (big_endian : bool),
    0 <= offset ->
    (offset + 4 <= len data ->
     exists v, get_dword data offset big_endian = Ok v /\ 0 <= v < 2 ^ 32) /\
    (len data < offset + 4 ->
     get_dword data offset big_endian = Raise IndexError).
Proof.
  intros data offset big_endian Ho. unfold get_dword.
  rewrite !get_word_wordAt by lia.
  split; intros Hl.
  - destruct (wordAt_Some data offset big_endian Ho) as [lo Elo]; [lia|].
    destruct (wordAt_Some data (offset + 2) big_endian) as [hi Ehi];
      [lia | lia |].
    pose proof (wordAt_range _ _ _ _ Ho Elo) as Rlo.
    assert (Rhi : 0 <= hi <= 65535)
      by (apply (wordAt_range data (offset + 2) big_endian); [lia | exact Ehi]).
    destruct big_endian; rewrite Elo, Ehi; cbn [rbind];
      eexists; (split; [reflexivity | lia]).
  - destruct big_endian;
      rewrite (wordAt_None data (offset + 2)) by lia;
      destruct (Spec.wordAt data offset _); reflexivity.
Qed.

Lemma get_dword_bounds_witness :
  0 <= 0 /\ 0 + 4 <= len [x78; x56; x34; x12] /\
  exists v, get_dword [x78; x56; x34; x12] 0 false = Ok v /\ 0 <= v < 2 ^ 32.
Proof.
  assert (O : 0 <= 0) by lia.
  assert (L : 0 + 4 <= len [x78; x56; x34; x12]) by (vm_compute; discriminate).
  split; [exact O|]. split; [exact L|].
  exact (proj1 (get_dword_bounds [x78; x56; x34; x12] 0 false O) L).
Defined.

Lemma asciiAt_length (data : bytes) (n : nat) :
  forall offset s, Spec.asciiAt data offset n = Some s -> String.length s = n.
Proof.
  induction n as [|n IH]; intros offset s; cbn [Spec.asciiAt].
  - intros [= <-]. reflexivity.
  - destruct (Spec.byteAt data offset) as [b|]; [|discriminate].
    destruct (Spec.asciiAt data (offset + 1) n) as [t|] eqn:Et; [|discriminate].
    intros [= <-]. cbn [String.length]. f_equal. exact (IH _ _ Et).
Qed.

Lemma asciiAt_get (data : bytes) (n : nat) :
  forall offset s (i : nat),
    Spec.asciiAt data offset n = Some s -> (i < n)%nat ->
    exists v, Spec.byteAt data (offset + Z.of_nat i) = Some v /\
              String.get i s = Some (chr v).
Proof.
  induction n as [|n IH]; intros offset s i; cbn [Spec.asciiAt].
  - intros _ Hi. lia.
  - destruct (Spec.byteAt data offset) as [b|] eqn:Eb; [|discriminate].
    destruct (Spec.asciiAt data (offset + 1) n) as [t|] eqn:Et; [|discriminate].
    intros [= <-] Hi. destruct i as [|i].
    + exists b. rewrite Z.add_0_r. split; [exact Eb | reflexivity].
    + destruct (IH (offset + 1) t i Et) as [v [Ev Eg]]; [lia|].
      exists v. split; [|exact Eg].
      rewrite <- Ev. f_equal. lia.
Qed.

Lemma append_assoc (a b c : string) : ((a ++ b) ++ c = a ++ (b ++ c))%string.
Proof.
  induction a as [|x a IH]; cbn [append]; [reflexivity | rewrite IH; reflexivity].
Qed.

Lemma asciiAt_app (data : bytes) (m n : nat) :
  forall offset,
    Spec.asciiAt data offset (m + n) =
    match Spec.asciiAt data offset m with
    | Some a =>
        match Spec.asciiAt data (offset + Z.of_nat m) n with
        | Some b => Some (a ++ b)%string
        | None => None
        end
    | None => None
    end.
Proof.
  induction m as [|m IH]; intros offset.
  - cbn [Nat.add Spec.asciiAt]. rewrite Z.add_0_r.
    destruct (Spec.asciiAt data offset n); reflexivity.
  - cbn [Nat.add Spec.asciiAt].
    destruct (Spec.byteAt data offset) as [b|]; [|reflexivity].
    rewrite IH.
    replace (offset + 1 + Z.of_nat m) with (offset + Z.of_nat (S m)) by lia.
    destruct (Spec.asciiAt data (offset + 1) m) as [a|]; [|reflexivity].
    destruct (Spec.asciiAt data (offset + Z.of_nat (S m)) n); reflexivity.
Qed.

(** X5: [get_string] at a non-negative offset: a request for no characters
    answers the empty string; a request that fits returns as many
    characters as asked, the [i]-th being [chr] of the byte at
    [offset + i]; a request that runs past the buffer raises
    [IndexError]. *)
Theorem get_string_bounds :
  forall (data : bytes) (offset length : Z),
    0 <= offset ->
    (length <= 0 -> get_string data offset length = Ok "") /\
    (0 <= length -> offset + length <= len data ->
     exists s,
       get_string data offset length = Ok s /\
       Z.of_nat (String.length s) = length /\
       forall i, 0 <= i < length ->
         exists v, getitem data (offset + i) = Ok v /\
                   String.get (Z.to_nat i) s = Some (chr v)) /\
    (0 < length -> len data < offset + length ->
     get_string data offset length = Raise IndexError).
Proof.
  intros data offset length Ho. rewrite get_string_asciiAt by assumption.
  split; [|split].
  - intros Hl. replace (Z.to_nat length) with 0%nat by lia. reflexivity.
  - intros Hl Hfit.
    destruct (asciiAt_Some data (Z.to_nat length) offset) as [s Es]; [lia | lia |].
    rewrite Es. exists s. split; [reflexivity|]. split.
    + rewrite (asciiAt_length _ _ _ _ Es). lia.
    + intros i Hi.
      destruct (asciiAt_get data _ offset s (Z.to_nat i) Es) as [v [Ev Eg]];
        [lia|].
      exists v. split; [|exact Eg].
      rewrite getitem_byteAt by lia.
      replace (offset + i) with (offset + Z.of_nat (Z.to_nat i)) by lia.
      rewrite Ev. reflexivity.
  - intros Hpos Hl.
    replace (Z.to_nat length) with (S (Z.to_nat (length - 1))) by lia.
    rewrite asciiAt_None by lia. reflexivity.
Qed.

Lemma get_string_bounds_witness :
  0 <= 1 /\ 0 <= 2 /\ 1 + 2 <= len [x00; x32; x41] /\
  exists s,
    get_string [x00; x32; x41] 1 2 = Ok s /\
    Z.of_nat (String.length s) = 2 /\
    forall i, 0 <= i < 2 ->
      exists v, getitem [x00; x32; x41] (1 + i) = Ok v /\
                String.get (Z.to_nat i) s = Some (chr v).
Proof.
  assert (O : 0 <= 1) by lia.
  assert (N : 0 <= 2) by lia.
  assert (L : 1 + 2 <= len [x00; x32; x41]) by (vm_compute; discriminate).
  split; [exact O|]. split; [exact N|]. split; [exact L|].
  exact (proj1 (proj2 (get_string_bounds [x00; x32; x41] 1 2 O)) N L).
Defined.

(** X6: Reading [m + n] characters is reading [m] and then [n] from where
    the first read stopped, errors included. *)
Theorem get_string_split :
  forall (data : bytes) (offset m n : Z),
    0 <= offset -> 0 <= m -> 0 <= n ->
    get_string data offset (m + n) =
    (first <~ get_string data offset m ;;
     second <~ get_string data (offset + m) n ;;
     Ok (first ++ second)%string).
Proof.
  intros data offset m n Ho Hm Hn.
  rewrite !get_string_asciiAt by lia.
  replace (Z.to_nat (m + n)) with (Z.to_nat m + Z.to_nat n)%nat by lia.
  rewrite asciiAt_app.
  replace (offset + Z.of_nat (Z.to_nat m)) with (offset + m) by lia.
  destruct (Spec.asciiAt data offset (Z.to_nat m)) as [a|]; [|reflexivity].
  destruct (Spec.asciiAt data (offset + m) (Z.to_nat n)); reflexivity.
Qed.

Lemma get_string_split_witness :
  0 <= 0 /\ 0 <= 3 /\ 0 <= 1 /\
  get_string [x44; x4f; x53; x01] 0 (3 + 1) =
  (first <~ get_string [x44; x4f; x53; x01] 0 3 ;;
   second <~ get_string [x44; x4f; x53; x01] (0 + 3) 1 ;;
   Ok (first ++ second)%string).
Proof.
  assert (O : 0 <= 0) by lia.
  assert (A : 0 <= 3) by lia.
  assert (B : 0 <= 1) by lia.
  repeat (split; [assumption|]).
  exact (get_string_split [x44; x4f; x53; x01] 0 3 1 O A B).
Defined.

Lemma nth_error_last (data : bytes) (d : byte) :
  data <> [] -> nth_error data (List.length data - 1) = Some (last data d).
Proof.
  induction data as [|a rest IH]; intros Hne; [contradiction|].
  destruct rest as [|b rest].
  - reflexivity.
  - replace (List.length (a :: b :: rest) - 1)%nat
      with (S (List.length (b :: rest) - 1)) by (cbn [List.length]; lia).
    cbn [nth_error]. rewrite IH by discriminate. reflexivity.
Qed.

(** X7: A negative offset is not refused: [get_word(data, -1)] pairs the
    last byte of the buffer with the first one. *)
Theorem get_word_negative_offset :
  forall (data : bytes),
    data <> [] ->
    get_word data (-1) false =
    Ok (byte_int (last data x00) + byte_int (hd x00 data) * 256).
Proof.
  intros data Hne. unfold get_word.
  assert (L : 1 <= len data).
  { destruct data; [contradiction|]. unfold len. cbn [List.length]. lia. }
  assert (E1 : getitem data (-1) = Ok (byte_int (last data x00))).
  { unfold getitem. cbn [Z.ltb Z.compare].
    destruct (Z.ltb_spec (-1 + len data) 0); [lia|].
    replace (Z.to_nat (-1 + len data)) with (List.length data - 1)%nat
      by (unfold len; lia).
    rewrite (nth_error_last data x00 Hne). reflexivity. }
  assert (E0 : getitem data (-1 + 1) = Ok (byte_int (hd x00 data))).
  { destruct data; [contradiction|]. reflexivity. }
  rewrite E1, E0. reflexivity.
Qed.

Lemma get_word_negative_offset_witness :
  [x11; x22; x33] <> [] /\
  get_word [x11; x22; x33] (-1) false =
  Ok (byte_int (last [x11; x22; x33] x00) + byte_int (hd x00 [x11; x22; x33]) * 256).
Proof.
  assert (N : [x11; x22; x33] <> []) by discriminate.
  split; [exact N|].
  exact (get_word_negative_offset [x11; x22; x33] N).
Defined.

(** ** Track acquisition and exceptions *)

Section ReadTrack.

Context {World : Type} `{Host World}.

(** [read_track] from the naming of the image file on, with the command
    line it builds. *)
Lemma read_track_command (decoder : string) (cylinder : Z) (p : Params)
  (w : World) :
  read_track decoder cylinder p w =
  (name <- os mktemp ;;
   cp <- os (subprocess_run
               (command_line decoder cylinder p (name ++ ".img")%string)) ;;
   data <- (if returncode cp =? 0 then
              content <- os (open_read (name ++ ".img")%string) ;;
              _ <- os (unlink (name ++ ".img")%string) ;;
              ret (PyBytes content)
            else
              ret (PyStr "")) ;;
   lift (bytearray data)) w.
Proof.
  unfold read_track, command_line. destruct (forty_track p); reflexivity.
Qed.

End ReadTrack.

(** X8: [read_track] returns a buffer exactly when a temporary name was
    obtained, the capture command, run with the command line of the
    decoder and the cylinder, returned 0 and the image file could then
    be read and deleted; the buffer is the content of that file.  After a capture that returned another
    code it raises [TypeError], in the world as the capture left it: the
    image file is neither read nor deleted. *)
Theorem read_track_outcomes :
  forall (World : Type) (H : Host World) (decoder : string) (cylinder : Z)
         (p : Params) (w : World),
    (forall (buffer : bytes) (w' : World),
        read_track decoder cylinder p w = (Ok buffer, w') <->
        exists name w1 cp w2 w3,
          mktemp w = (Some name, w1) /\
          subprocess_run
            (command_line decoder cylinder p (name ++ ".img")%string) w1
          = (Some cp, w2) /\
          returncode cp = 0 /\
          open_read (name ++ ".img")%string w2 = (Some buffer, w3) /\
          unlink (name ++ ".img")%string w3 = (Some tt, w')) /\
    (forall name w1 cp w2,
        mktemp w = (Some name, w1) ->
        subprocess_run
          (command_line decoder cylinder p (name ++ ".img")%string) w1
        = (Some cp, w2) ->
        returncode cp <> 0 ->
        read_track decoder cylinder p w = (Raise TypeError, w2)).
Proof.
  intros World H decoder cylinder p w. split.
  - intros buffer w'. rewrite read_track_command.
    unfold bind, os, lift, ret. split.
    + destruct (mktemp w) as [[name|] w1] eqn:E1; [|discriminate].
      destruct (subprocess_run _ w1) as [[cp|] w2] eqn:E2; [|discriminate].
      destruct (Z.eqb_spec (returncode cp) 0) as [E0|E0]; [|discriminate].
      destruct (open_read _ w2) as [[content|] w3] eqn:E3; [|discriminate].
      destruct (unlink _ w3) as [[[]|] w4] eqn:E4; [|discriminate].
      cbn [bytearray]. intros [= <- <-].
      exists name, w1, cp, w2, w3. repeat split; assumption.
    + intros [name [w1 [cp [w2 [w3 [E1 [E2 [E0 [E3 E4]]]]]]]]].
      rewrite E1, E2, E0. cbn [Z.eqb]. rewrite E3, E4. reflexivity.
  - intros name w1 cp w2 E1 E2 E0. rewrite read_track_command.
    unfold bind, os, lift, ret. rewrite E1, E2.
    destruct (Z.eqb_spec (returncode cp) 0) as [Z0|_]; [contradiction|].
    reflexivity.
Qed.

(** A drive that is not there: the capture returns 1. *)
Lemma read_track_outcomes_witness :
  let host := sim_host disk_absent in
  let cp := {| returncode := 1; stdout := "" |} in
  let w2 := {| tmp_image := None; captures := ["amiga"] |} in
  @mktemp Sim host sim_start = (Some sim_tmp, sim_start) /\
  @subprocess_run Sim host
    (command_line "amiga" 0 params_3_5 (sim_tmp ++ ".img")%string) sim_start
  = (Some cp, w2) /\
  returncode cp <> 0 /\
  @read_track Sim host "amiga" 0 params_3_5 sim_start = (Raise TypeError, w2).
Proof.
  intros host cp w2.
  assert (E1 : @mktemp Sim host sim_start = (Some sim_tmp, sim_start))
    by reflexivity.
  assert (E2 : @subprocess_run Sim host
                 (command_line "amiga" 0 params_3_5 (sim_tmp ++ ".img")%string)
                 sim_start = (Some cp, w2)) by reflexivity.
  assert (E0 : returncode cp <> 0) by discriminate.
  repeat (split; [assumption|]).
  exact (proj2 (read_track_outcomes Sim host "amiga" 0 params_3_5 sim_start)
           sim_tmp sim_start cp w2 E1 E2 E0).
Defined.

Section Exceptions.

Context {World : Type} `{Host World}.

Variable p : Params.
Variable debug : bool.

Lemma read_track_origin decoder cylinder (w w' : World) (e : exn) :
  read_track decoder cylinder p w = (Raise e, w') -> index_or_read p e w'.
Proof.
  intros R. right. exists decoder, cylinder, w. exact R.
Qed.

Lemma getitem_origin (data : bytes) (i : Z) (e : exn) (w' : World) :
  getitem data i = Raise e -> index_or_read p e w'.
Proof.
  intros E. apply getitem_raises in E. left. exact E.
Qed.

Lemma get_word_origin (data : bytes) (offset : Z) (be : bool) (e : exn)
  (w' : World) :
  get_word data offset be = Raise e -> index_or_read p e w'.
Proof.
  unfold get_word. destruct be;
    (destruct (getitem data offset) as [a|e1] eqn:Ea;
     [|intros [= <-]; exact (getitem_origin _ _ _ _ Ea)];
     destruct (getitem data (offset + 1)) as [b|e2] eqn:Eb;
     [discriminate | intros [= <-]; exact (getitem_origin _ _ _ _ Eb)]).
Qed.

Lemma get_string_loop_origin (data : bytes) (n : nat) :
  forall i buffer e (w' : World),
    get_string_loop data i n buffer = Raise e -> index_or_read p e w'.
Proof.
  induction n as [|n IH]; intros i buffer e w'; cbn [get_string_loop].
  - discriminate.
  - destruct (getitem data i) as [b|e1] eqn:Eb.
    + cbn [rbind]. apply IH.
    + intros [= <-]. exact (getitem_origin _ _ _ _ Eb).
Qed.

Lemma probe_bpb_loop_origin (formats : list string) :
  (forall format, In format formats ->
     exists n, dict_getitem (bpb_probes (media_size p)) format = Ok n) ->
  forall (w w' : World) (e : exn),
    probe_bpb_loop p debug formats w = (Raise e, w') -> index_or_read p e w'.
Proof.
  induction formats as [|name rest IH]; intros Hkeys w w' e E.
  - discriminate E.
  - assert (Next : forall w1,
      probe_bpb_loop p debug rest w1 = (Raise e, w') -> index_or_read p e w').
    { intros w1. apply IH. intros format Hin. apply Hkeys. right. exact Hin. }
    cbn [probe_bpb_loop] in E. unfold bind at 1 in E.
    destruct (read_track name 0 p w) as [[data|e0] w1] eqn:R;
      [|inversion E; subst; exact (read_track_origin _ _ _ _ _ R)].
    destruct (negb (has_data data)); [exact (Next _ E)|].
    rewrite bind_lift in E.
    destruct (get_word data 0x1fe false) as [signature|e0] eqn:G1;
      [|inversion E; subst; exact (get_word_origin _ _ _ _ _ G1)].
    destruct (signature =? 0xaa55); [|exact (Next _ E)].
    rewrite bind_lift in E.
    destruct (getitem data 0) as [jump|e0] eqn:G2;
      [|inversion E; subst; exact (getitem_origin _ _ _ _ G2)].
    destruct (in_tuple jump [0xeb; 0xe9]); [|exact (Next _ E)].
    rewrite bind_lift in E.
    destruct (get_word data 0x13 false) as [total|e0] eqn:G3;
      [|inversion E; subst; exact (get_word_origin _ _ _ _ _ G3)].
    rewrite bind_lift in E.
    destruct (Hkeys name (or_introl eq_refl)) as [expected Hexp].
    rewrite Hexp in E.
    destruct (total =? expected); [|exact (Next _ E)].
    rewrite bind_lift in E.
    destruct (getitem data 0x0d) as [spc|e0] eqn:G4;
      [|inversion E; subst; exact (getitem_origin _ _ _ _ G4)].
    rewrite in_tuple_spc in E.
    destruct (Spec.validSectorsPerCluster spc) eqn:Hspc; cbn [negb] in E;
      [|exact (Next _ E)].
    apply validSectorsPerCluster_range in Hspc.
    unfold truediv in E.
    destruct (Z.eqb_spec spc 0) as [E0|_]; [lia|].
    rewrite bind_lift_ok in E. discriminate E.
Qed.

Lemma bpb_probes_keys (size : MediaSize) (format : string) :
  In format (keys (bpb_probes size)) ->
  exists n, dict_getitem (bpb_probes size) format = Ok n.
Proof.
  destruct size; cbn [bpb_probes keys map fst In]; intros Hin;
    repeat (destruct Hin as [<-|Hin]; [eexists; reflexivity|]);
    contradiction.
Qed.

Lemma probe_bpb_origin (w w' : World) (e : exn) :
  probe_bpb p debug w = (Raise e, w') -> index_or_read p e w'.
Proof.
  unfold probe_bpb. apply probe_bpb_loop_origin.
  intros format. apply bpb_probes_keys.
Qed.

Lemma probe_mac_800_origin (w w' : World) (e : exn) :
  probe_mac_800 p debug w = (Raise e, w') -> index_or_read p e w'.
Proof.
  unfold probe_mac_800, bind at 1.
  destruct (read_track "mac800" 0 p w) as [[data|e0] w1] eqn:R;
    [|intros [= <- <-]; exact (read_track_origin _ _ _ _ _ R)].
  destruct (negb (has_data data)); [discriminate|].
  rewrite bind_lift.
  destruct (get_word data 0 true) as [boot|e0] eqn:G1;
    [|intros [= <- <-]; exact (get_word_origin _ _ _ _ _ G1)].
  destruct (boot =? 0x4c4b); [discriminate|].
  rewrite bind_lift.
  destruct (get_word data 0x400 true) as [volume|e0] eqn:G2;
    [|intros [= <- <-]; exact (get_word_origin _ _ _ _ _ G2)].
  destruct (volume =? 0x4244); [discriminate|].
  rewrite bind_lift_ok.
  destruct (volume =? 0xd2d7); discriminate.
Qed.

Lemma probe_mac_origin (w w' : World) (e : exn) :
  probe_mac p debug w = (Raise e, w') -> index_or_read p e w'.
Proof.
  unfold probe_mac. destruct (media_size p); [|discriminate].
  unfold bind at 1.
  destruct (read_track "ibm1440" 0 p w) as [[data|e0] w1] eqn:R;
    [|intros [= <- <-]; exact (read_track_origin _ _ _ _ _ R)].
  destruct (has_data data); [|apply probe_mac_800_origin].
  rewrite bind_lift.
  destruct (get_word data 0x400 true) as [volume|e0] eqn:G;
    [|intros [= <- <-]; exact (get_word_origin _ _ _ _ _ G)].
  destruct (volume =? 0x4244); [discriminate | apply probe_mac_800_origin].
Qed.

Lemma probe_amiga_origin (w w' : World) (e : exn) :
  probe_amiga p debug w = (Raise e, w') -> index_or_read p e w'.
Proof.
  unfold probe_amiga. destruct (media_size p); [|discriminate].
  unfold bind at 1.
  destruct (read_track "amiga" 0 p w) as [[data|e0] w1] eqn:R;
    [|intros [= <- <-]; exact (read_track_origin _ _ _ _ _ R)].
  destruct (negb (has_data data)); [discriminate|].
  rewrite bind_lift.
  destruct (get_string data 0 4) as [fstype|e0] eqn:G; [discriminate|].
  intros [= <- <-]. exact (get_string_loop_origin _ _ _ _ _ _ G).
Qed.

Lemma probe_c64_origin (w w' : World) (e : exn) :
  probe_c64 p debug w = (Raise e, w') -> index_or_read p e w'.
Proof.
  unfold probe_c64. destruct (media_size p); [discriminate|].
  unfold bind at 1.
  destruct (read_track "commodore1541" 17 p w) as [[data|e0] w1] eqn:R;
    [|intros [= <- <-]; exact (read_track_origin _ _ _ _ _ R)].
  destruct (has_data data); [|discriminate].
  rewrite bind_lift.
  destruct (getitem data 0x16500) as [track|e0] eqn:G1;
    [|intros [= <- <-]; exact (getitem_origin _ _ _ _ G1)].
  destruct (track =? 0x12); [|discriminate].
  rewrite bind_lift.
  destruct (getitem data 0x16501) as [sector|e0] eqn:G2;
    [|intros [= <- <-]; exact (getitem_origin _ _ _ _ G2)].
  destruct (sector =? 0x01); [|discriminate].
  rewrite bind_lift.
  destruct (get_string data 0x165a5 2) as [version|e0] eqn:G3.
  - destruct (String.eqb version "2A"); discriminate.
  - intros [= <- <-]. exact (get_string_loop_origin _ _ _ _ _ _ G3).
Qed.

End Exceptions.



(** X10: [main] catches nothing: an exception of a probe ends the run at that
    probe, with the world as the probe left it, and no later probe is
    tried. *)
Theorem main_stops_at_exception :
  forall (World : Type) (H : Host World) (args : Args) (w : World) (e : exn),
    let p := fluxengine_params args in
    let debug := args_debug args in
    (forall w1,
        probe_bpb p debug w = (Raise e, w1) ->
        main args w = (Raise e, w1)) /\
    (forall fs1 w1 w2,
        probe_bpb p debug w = (Ok (None, fs1), w1) ->
        probe_mac p debug w1 = (Raise e, w2) ->
        main args w = (Raise e, w2)) /\
    (forall fs1 w1 fs2 w2 w3,
        probe_bpb p debug w = (Ok (None, fs1), w1) ->
        probe_mac p debug w1 = (Ok (None, fs2), w2) ->
        probe_amiga p debug w2 = (Raise e, w3) ->
        main args w = (Raise e, w3)) /\
    (forall fs1 w1 fs2 w2 fs3 w3 w4,
        probe_bpb p debug w = (Ok (None, fs1), w1) ->
        probe_mac p debug w1 = (Ok (None, fs2), w2) ->
        probe_amiga p debug w2 = (Ok (None, fs3), w3) ->
        probe_c64 p debug w3 = (Raise e, w4) ->
        main args w = (Raise e, w4)).
Proof.
  intros World H args w e p debug. unfold main. fold p. fold debug.
  repeat split.
  - intros w1 B. cbn [main_loop]. apply bind_raise. exact B.
  - intros fs1 w1 w2 B Mc.
    rewrite (main_loop_miss _ _ _ _ _ _ _ B).
    cbn [main_loop]. apply bind_raise. exact Mc.
  - intros fs1 w1 fs2 w2 w3 B Mc A.
    rewrite (main_loop_miss _ _ _ _ _ _ _ B), (main_loop_miss _ _ _ _ _ _ _ Mc).
    cbn [main_loop]. apply bind_raise. exact A.
  - intros fs1 w1 fs2 w2 fs3 w3 w4 B Mc A C.
    rewrite (main_loop_miss _ _ _ _ _ _ _ B), (main_loop_miss _ _ _ _ _ _ _ Mc),
      (main_loop_miss _ _ _ _ _ _ _ A).
    cbn [main_loop]. apply bind_raise. exact C.
Qed.

(** A blank 3.5-inch floppy whose Amiga read is one stray byte: the
    first two probes find nothing, the third one raises, the Commodore
    probe is never reached. *)
Lemma main_stops_at_exception_witness :
  let host := sim_host [("amiga", (0, [x01]))] in
  let w1 := {| tmp_image := None; captures := ["ibm1440"; "ibm720"] |} in
  let w2 := {| tmp_image := None;
               captures := ["ibm1440"; "ibm720"; "ibm1440"; "mac800"] |} in
  let w3 := {| tmp_image := None;
               captures := ["ibm1440"; "ibm720"; "ibm1440"; "mac800";
                            "amiga"] |} in
  let p := fluxengine_params args_3_5 in
  @probe_bpb Sim host p false sim_start = (Ok (None, None), w1) /\
  @probe_mac Sim host p false w1 = (Ok (None, None), w2) /\
  @probe_amiga Sim host p false w2 = (Raise IndexError, w3) /\
  @main Sim host args_3_5 sim_start = (Raise IndexError, w3).
Proof.
  intros host w1 w2 w3 p.
  assert (B : @probe_bpb Sim host p false sim_start = (Ok (None, None), w1))
    by (vm_compute; reflexivity).
  assert (Mc : @probe_mac Sim host p false w1 = (Ok (None, None), w2))
    by (vm_compute; reflexivity).
  assert (A : @probe_amiga Sim host p false w2 = (Raise IndexError, w3))
    by (vm_compute; reflexivity).
  repeat (split; [assumption|]).
  exact (proj1 (proj2 (proj2
           (main_stops_at_exception Sim host args_3_5 sim_start IndexError)))
           None w1 None w2 w3 B Mc A).
Defined.

(** X11: The [--device] argument is stored in the parameters and never used:
    two command lines that differ in nothing else have the same run. *)
Theorem main_ignores_device :
  forall (World : Type) (H : Host World) (a b : Args) (w : World),
    args_debug a = args_debug b ->
    args_drive a = args_drive b ->
    args_tracks a = args_tracks b ->
    args_size a = args_size b ->
    main a w = main b w.
Proof.
  intros World H [debug drive tracks size dev_a] [debug' drive' tracks' size' dev_b] w.
  cbn [args_debug args_drive args_tracks args_size].
  intros <- <- <- <-.
  destruct size; reflexivity.
Qed.

Lemma main_ignores_device_witness :
  let other := {| args_debug := false; args_drive := Drive_A; args_tracks := 80;
                  args_size := Size_3_5; args_device := Some "/dev/ttyACM0" |} in
  args_debug args_3_5 = args_debug other /\
  args_drive args_3_5 = args_drive other /\
  args_tracks args_3_5 = args_tracks other /\
  args_size args_3_5 = args_size other /\
  @main Sim (sim_host disk_mac_hfs) args_3_5 sim_start =
  @main Sim (sim_host disk_mac_hfs) other sim_start.
Proof.
  intros other.
  repeat (split; [reflexivity|]).
  exact (main_ignores_device Sim (sim_host disk_mac_hfs) args_3_5 other
           sim_start eq_refl eq_refl eq_refl eq_refl).
Defined.

(** ** What can be reported *)

Section Reports.

Context {World : Type} `{Host World}.

Variable p : Params.
Variable debug : bool.

Lemma probe_bpb_known (w w' : World) (format : string)
  (filesystem : option string) :
  probe_bpb p debug w = (Ok (Some format, filesystem), w') ->
  In (format, filesystem) (verdicts (media_size p)).
Proof.
  intros E. unfold probe_bpb in E.
  destruct (probe_bpb_loop_verdict _ _ _ _ _ _ _ E)
    as [[N _]|[name [Hin [[= <-] ->]]]]; [discriminate N|].
  destruct (media_size p); cbn [bpb_probes keys map fst In] in Hin;
    cbn [verdicts In];
    repeat (destruct Hin as [<-|Hin]; [tauto|]); contradiction.
Qed.

Lemma probe_mac_800_known (w w' : World) (format : string)
  (filesystem : option string) :
  probe_mac_800 p debug w = (Ok (Some format, filesystem), w') ->
  In (format, filesystem)
     [("mac800", Some "hfs"); ("mac400", Some "mfs"); ("mac800", None)].
Proof.
  unfold probe_mac_800, bind at 1.
  destruct (read_track "mac800" 0 p w) as [[data|e] w1]; [|discriminate].
  destruct (negb (has_data data)); [discriminate|].
  rewrite bind_lift.
  destruct (get_word data 0 true) as [boot|e]; [|discriminate].
  destruct (boot =? 0x4c4b); [intros [= <- <- _]; cbn [In]; tauto|].
  rewrite bind_lift.
  destruct (get_word data 0x400 true) as [volume|e]; [|discriminate].
  destruct (volume =? 0x4244); [intros [= <- <- _]; cbn [In]; tauto|].
  rewrite bind_lift_ok.
  destruct (volume =? 0xd2d7); intros [= <- <- _]; cbn [In]; tauto.
Qed.

Lemma probe_mac_known (w w' : World) (format : string)
  (filesystem : option string) :
  probe_mac p debug w = (Ok (Some format, filesystem), w') ->
  In (format, filesystem) (verdicts (media_size p)).
Proof.
  unfold probe_mac. destruct (media_size p); [|discriminate].
  assert (K : forall w1,
    probe_mac_800 p debug w1 = (Ok (Some format, filesystem), w') ->
    In (format, filesystem) (verdicts Size_3_5)).
  { intros w1 E. apply probe_mac_800_known in E. cbn [In] in E.
    cbn [verdicts In]. tauto. }
  unfold bind at 1.
  destruct (read_track "ibm1440" 0 p w) as [[data|e] w1]; [|discriminate].
  destruct (has_data data); [|apply K].
  rewrite bind_lift.
  destruct (get_word data 0x400 true) as [volume|e]; [|discriminate].
  destruct (volume =? 0x4244); [|apply K].
  intros [= <- <- _]. cbn [verdicts In]. tauto.
Qed.

Lemma fstypes_known (fstype : string) :
  In ("amiga", dict_get fstypes fstype) (verdicts Size_3_5).
Proof.
  unfold fstypes. cbn [dict_get verdicts In].
  repeat match goal with
         | |- context [if ?c then _ else _] => destruct c; [tauto|]
         end.
  tauto.
Qed.

Lemma probe_amiga_known (w w' : World) (format : string)
  (filesystem : option string) :
  probe_amiga p debug w = (Ok (Some format, filesystem), w') ->
  In (format, filesystem) (verdicts (media_size p)).
Proof.
  unfold probe_amiga. destruct (media_size p); [|discriminate].
  unfold bind at 1.
  destruct (read_track "amiga" 0 p w) as [[data|e] w1]; [|discriminate].
  destruct (negb (has_data data)); [discriminate|].
  rewrite bind_lift.
  destruct (get_string data 0 4) as [fstype|e]; [|discriminate].
  intros [= <- <- _]. apply fstypes_known.
Qed.

Lemma probe_c64_known (w w' : World) (format : string)
  (filesystem : option string) :
  probe_c64 p debug w = (Ok (Some format, filesystem), w') ->
  In (format, filesystem) (verdicts (media_size p)).
Proof.
  unfold probe_c64. destruct (media_size p); [discriminate|].
  unfold bind at 1.
  destruct (read_track "commodore1541" 17 p w) as [[data|e] w1];
    [|discriminate].
  destruct (has_data data); [|discriminate].
  rewrite bind_lift.
  destruct (getitem data 0x16500) as [track|e]; [|discriminate].
  destruct (track =? 0x12); [|discriminate].
  rewrite bind_lift.
  destruct (getitem data 0x16501) as [sector|e]; [|discriminate].
  destruct (sector =? 0x01); [|discriminate].
  rewrite bind_lift.
  destruct (get_string data 0x165a5 2) as [version|e]; [|discriminate].
  destruct (String.eqb version "2A"); [|discriminate].
  intros [= <- <- _]. cbn [verdicts In]. tauto.
Qed.

End Reports.

(** X12: Whatever [main] reports for a media size is the fallback line or one
    of the verdicts of that size, with exit status 0: on 5.25-inch media
    a FAT12 format of the 5.25-inch table or the 1541 format, never a
    Macintosh or Amiga one; on 3.5-inch media a FAT12, Macintosh or Amiga
    verdict, never the 1541 one. *)
Theorem main_reports_known_verdicts :
  forall (World : Type) (H : Host World) (args : Args) (w w' : World)
         (o : Outcome),
    main args w = (Ok o, w') ->
    o = Returned not_common \/
    exists format filesystem,
      In (format, filesystem) (verdicts (args_size args)) /\
      o = Exited 0 (format_line format filesystem).
Proof.
  intros World H args w w' o E. unfold main in E.
  destruct (main_loop_report _ _ _ _ _ _ E)
    as [R|[probe [w0 [w1 [format [fs [Hin [P [_ R]]]]]]]]].
  - left. exact R.
  - right. exists format, fs. split; [|exact R].
    change (args_size args) with (media_size (fluxengine_params args)).
    cbn [In] in Hin.
    destruct Hin as [<-|[<-|[<-|[<-|[]]]]].
    + exact (probe_bpb_known _ _ _ _ _ _ P).
    + exact (probe_mac_known _ _ _ _ _ _ P).
    + exact (probe_amiga_known _ _ _ _ _ _ P).
    + exact (probe_c64_known _ _ _ _ _ _ P).
Qed.

Lemma main_reports_known_verdicts_witness :
  let host := sim_host disk_c1541 in
  let w' := {| tmp_image := None;
               captures := ["ibm1200"; "ibm360"; "ibm320"; "ibm180"; "ibm160";
                            "commodore1541"] |} in
  let o := Exited 0 (format_line "commodore1541" (Some "2A")) in
  @main Sim host args_5_25 sim_start = (Ok o, w') /\
  (o = Returned not_common \/
   exists format filesystem,
     In (format, filesystem) (verdicts (args_size args_5_25)) /\
     o = Exited 0 (format_line format filesystem)).
Proof.
  intros host w' o.
  assert (E : @main Sim host args_5_25 sim_start = (Ok o, w'))
    by (vm_compute; reflexivity).
  split; [exact E|].
  exact (main_reports_known_verdicts Sim host args_5_25 sim_start w' o E).
Defined.

(** ** The commands of a run *)

Section Footprint.

Context {W : Type} (H : Host W).

Variable p : Params.

Local Existing Instance traced.

Lemma issues_ret_full {A : Type} (full : A -> bool) (a : A) :
  @issues W A p full [] (ret a).
Proof.
  intros s r s' [= <- <-]. exists [], [].
  rewrite app_nil_r. repeat split; [constructor | exists []; reflexivity].
Qed.

Lemma issues_ret_stop {A : Type} (full : A -> bool) expected (a : A) :
  full a = false -> @issues W A p full expected (ret a).
Proof.
  intros F s r s' [= <- <-]. exists [], [].
  rewrite app_nil_r. repeat split; [constructor | exists expected; reflexivity|].
  intros T. congruence.
Qed.

Lemma issues_lift {A B : Type} (full : B -> bool) expected (r : result A)
  (k : A -> M (W * list (list string)) B) :
  (forall a, issues p full expected (k a)) ->
  issues p full expected (bind (lift r) k).
Proof.
  intros K s r' s'. destruct r as [a|e].
  - rewrite bind_lift_ok. apply K.
  - rewrite bind_lift_raise. intros [= <- <-]. exists [], [].
    rewrite app_nil_r.
    repeat split; [constructor | exists expected; reflexivity].
Qed.

Lemma issues_bind {A B : Type} (full : B -> bool) e1 e2
  (m : M (W * list (list string)) A) (k : A -> M (W * list (list string)) B) :
  issues p (fun _ => true) e1 m ->
  (forall a, issues p full e2 (k a)) ->
  issues p full (e1 ++ e2) (bind m k).
Proof.
  intros Hm Hk s r s'. unfold bind.
  destruct (m s) as [[a|e] s1] eqn:Em.
  - destruct (Hm _ _ _ Em) as [c1 [d1 [L1 [F1 [_ X1]]]]].
    specialize (X1 eq_refl). subst d1.
    intros Ek. destruct (Hk a _ _ _ Ek) as [c2 [d2 [L2 [F2 [[rest P2] X2]]]]].
    exists (c1 ++ c2), (e1 ++ d2). repeat split.
    + rewrite L2, L1, app_assoc. reflexivity.
    + apply Forall2_app; assumption.
    + exists rest. rewrite P2, app_assoc. reflexivity.
    + destruct r as [b|]; [|exact I]. intros T. rewrite (X2 T). reflexivity.
  - intros [= <- <-].
    destruct (Hm _ _ _ Em) as [c1 [d1 [L1 [F1 [[rest P1] _]]]]].
    exists c1, d1. repeat split; [assumption | assumption |].
    exists (rest ++ e2). rewrite P1, app_assoc. reflexivity.
Qed.

(** One read runs one command, the one of its decoder and cylinder, or
    none when no temporary name could be had. *)
Lemma issues_read_track (decoder : string) (cylinder : Z) :
  issues p (fun _ => true) [(decoder, cylinder)] (read_track decoder cylinder p).
Proof.
  intros s r s'. unfold read_track, bind, os, lift, ret.
  cbn [mktemp subprocess_run open_read unlink traced].
  assert (C : forall tmpfile,
    (if forty_track p
     then ["fluxengine"; "read"; decoder] ++ ["40track_drive"]
     else ["fluxengine"; "read"; decoder]) ++
    ["-s"; ("drive:" ++ str_int (drive p))%string; "--output"; tmpfile;
     "--cylinders"; str_int cylinder; "--decoder.retries=6"]
    = command_line decoder cylinder p tmpfile).
  { intros tmpfile. unfold command_line. destruct (forty_track p); reflexivity. }
  destruct (mktemp (fst s)) as [[name|] w1].
  - rewrite C. cbn [fst snd].
    assert (One : forall (r0 : result bytes) (s0 : W * list (list string)),
      snd s0 = snd s ++ [command_line decoder cylinder p (name ++ ".img")] ->
      exists (cmds : list (list string)) (ran : list (string * Z)),
        snd s0 = snd s ++ cmds /\ Forall2 (is_read p) cmds ran /\
        (exists rest, [(decoder, cylinder)] = ran ++ rest) /\
        match r0 with
        | Ok _ => true = true -> ran = [(decoder, cylinder)]
        | Raise _ => True
        end).
    { intros r0 s0 L.
      exists [command_line decoder cylinder p (name ++ ".img")],
             [(decoder, cylinder)].
      repeat split.
      - exact L.
      - constructor; [|constructor]. exists (name ++ ".img")%string. reflexivity.
      - exists []. reflexivity.
      - destruct r0; auto. }
    assert (Any : forall (r0 : result bytes) (w0 : W),
      exists (cmds : list (list string)) (ran : list (string * Z)),
        snd (w0, snd s ++ [command_line decoder cylinder p (name ++ ".img")])
        = snd s ++ cmds /\
        Forall2 (is_read p) cmds ran /\
        (exists rest, [(decoder, cylinder)] = ran ++ rest) /\
        match r0 with
        | Ok _ => true = true -> ran = [(decoder, cylinder)]
        | Raise _ => True
        end).
    { intros r0 w0. apply One. reflexivity. }
    destruct (subprocess_run _ w1) as [[cp|] w2];
      [|intros [= <- <-]; apply (Any (Raise OSError))].
    destruct (returncode cp =? 0);
      [|intros [= <- <-]; apply (Any (Raise TypeError))].
    cbn [fst snd].
    destruct (open_read _ w2) as [[content|] w3];
      [|intros [= <- <-]; apply (Any (Raise OSError))].
    cbn [fst snd].
    destruct (unlink _ w3) as [[u|] w4]; intros [= <- <-];
      [apply (Any (Ok content)) | apply (Any (Raise OSError))].
  - intros [= <- <-]. exists [], []. rewrite app_nil_r.
    repeat split; [constructor | exists [(decoder, cylinder)]; reflexivity].
Qed.

End Footprint.

Section FootprintProbes.

Context {W : Type} (H : Host W).

Variable p : Params.
Variable debug : bool.

Local Existing Instance traced.

Lemma issues_probe_bpb_loop (formats : list string) :
  issues p miss (map (fun format => (format, 0)) formats)
         (probe_bpb_loop p debug formats).
Proof.
  induction formats as [|name rest IH].
  - apply issues_ret_full.
  - cbn [map probe_bpb_loop].
    change ((name, 0) :: map (fun format => (format, 0)) rest)
      with ([(name, 0)] ++ map (fun format => (format, 0)) rest).
    apply issues_bind; [apply issues_read_track|].
    intros data.
    destruct (negb (has_data data)); [exact IH|].
    apply issues_lift; intros signature.
    destruct (signature =? 0xaa55); [|exact IH].
    apply issues_lift; intros jump.
    destruct (in_tuple jump [0xeb; 0xe9]); [|exact IH].
    apply issues_lift; intros total.
    apply issues_lift; intros expected.
    destruct (total =? expected); [|exact IH].
    apply issues_lift; intros spc.
    destruct (negb (in_tuple spc [1; 2; 4; 8; 16; 32; 64; 128])); [exact IH|].
    apply issues_lift; intros cluster_count.
    apply issues_ret_stop. reflexivity.
Qed.

Lemma issues_probe_mac_800 :
  issues p miss [("mac800", 0)] (probe_mac_800 p debug).
Proof.
  unfold probe_mac_800.
  change [("mac800", 0)] with ([("mac800", 0)] ++ []).
  apply issues_bind; [apply issues_read_track|].
  intros data.
  destruct (negb (has_data data)); [apply issues_ret_full|].
  apply issues_lift; intros boot.
  destruct (boot =? 0x4c4b); [apply issues_ret_stop; reflexivity|].
  apply issues_lift; intros volume.
  destruct (volume =? 0x4244); [apply issues_ret_stop; reflexivity|].
  apply issues_lift; intros volume'.
  destruct (volume' =? 0xd2d7); apply issues_ret_stop; reflexivity.
Qed.

Lemma issues_probe_mac :
  issues p miss
         (match media_size p with
          | Size_3_5 => [("ibm1440", 0); ("mac800", 0)]
          | Size_5_25 => []
          end)
         (probe_mac p debug).
Proof.
  unfold probe_mac. destruct (media_size p); [|apply issues_ret_full].
  change [("ibm1440", 0); ("mac800", 0)]
    with ([("ibm1440", 0)] ++ [("mac800", 0)]).
  apply issues_bind; [apply issues_read_track|].
  intros data.
  destruct (has_data data); [|apply issues_probe_mac_800].
  apply issues_lift; intros volume.
  destruct (volume =? 0x4244);
    [apply issues_ret_stop; reflexivity | apply issues_probe_mac_800].
Qed.

Lemma issues_probe_amiga :
  issues p miss
         (match media_size p with
          | Size_3_5 => [("amiga", 0)]
          | Size_5_25 => []
          end)
         (probe_amiga p debug).
Proof.
  unfold probe_amiga. destruct (media_size p); [|apply issues_ret_full].
  change [("amiga", 0)] with ([("amiga", 0)] ++ []).
  apply issues_bind; [apply issues_read_track|].
  intros data.
  destruct (negb (has_data data)); [apply issues_ret_full|].
  apply issues_lift; intros fstype.
  apply issues_ret_stop. reflexivity.
Qed.

Lemma issues_probe_c64 :
  issues p miss
         (match media_size p with
          | Size_3_5 => []
          | Size_5_25 => [("commodore1541", 17)]
          end)
         (probe_c64 p debug).
Proof.
  unfold probe_c64. destruct (media_size p); [apply issues_ret_full|].
  change [("commodore1541", 17)] with ([("commodore1541", 17)] ++ []).
  apply issues_bind; [apply issues_read_track|].
  intros data.
  destruct (has_data data); [|apply issues_ret_full].
  apply issues_lift; intros track.
  destruct (track =? 0x12); [|apply issues_ret_full].
  apply issues_lift; intros sector.
  destruct (sector =? 0x01); [|apply issues_ret_full].
  apply issues_lift; intros version.
  destruct (String.eqb version "2A");
    [apply issues_ret_stop; reflexivity | apply issues_ret_full].
Qed.

Lemma issues_main_loop_cons
  (probe : Params -> bool -> M (W * list (list string)) verdict)
  (rest : list (Params -> bool -> M (W * list (list string)) verdict))
  (e1 e2 : list (string * Z)) :
  issues p miss e1 (probe p debug) ->
  issues p unidentified e2 (main_loop rest p debug) ->
  issues p unidentified (e1 ++ e2) (main_loop (probe :: rest) p debug).
Proof.
  intros Hp Hr s r s'. cbn [main_loop]. unfold bind.
  destruct (probe p debug s) as [[[[format|] filesystem]|e] s1] eqn:E;
    destruct (Hp _ _ _ E) as [c1 [d1 [L1 [F1 [[rest1 P1] X1]]]]].
  - intros [= <- <-]. exists c1, d1.
    repeat split; [assumption | assumption | | discriminate].
    exists (rest1 ++ e2). rewrite P1, app_assoc. reflexivity.
  - specialize (X1 eq_refl). subst d1.
    intros Er. destruct (Hr _ _ _ Er) as [c2 [d2 [L2 [F2 [[rest2 P2] X2]]]]].
    exists (c1 ++ c2), (e1 ++ d2). repeat split.
    + rewrite L2, L1, app_assoc. reflexivity.
    + apply Forall2_app; assumption.
    + exists rest2. rewrite P2, app_assoc. reflexivity.
    + destruct r as [o|]; [|exact I]. intros T. rewrite (X2 T). reflexivity.
  - intros [= <- <-]. exists c1, d1.
    repeat split; [assumption | assumption |].
    exists (rest1 ++ e2). rewrite P1, app_assoc. reflexivity.
Qed.

End FootprintProbes.

Lemma issues_main {W : Type} (H : Host W) (args : Args) :
  @issues W Outcome (fluxengine_params args) unidentified
    (track_reads (args_size args)) (@main _ (traced H) args).
Proof.
  unfold main.
  replace (track_reads (args_size args)) with
    (map (fun format => (format, 0))
         (keys (bpb_probes (media_size (fluxengine_params args)))) ++
     match media_size (fluxengine_params args) with
     | Size_3_5 => [("ibm1440", 0); ("mac800", 0)]
     | Size_5_25 => []
     end ++
     match media_size (fluxengine_params args) with
     | Size_3_5 => [("amiga", 0)]
     | Size_5_25 => []
     end ++
     match media_size (fluxengine_params args) with
     | Size_3_5 => []
     | Size_5_25 => [("commodore1541", 17)]
     end ++ [])
    by (cbn [media_size fluxengine_params]; destruct (args_size args);
        reflexivity).
  apply issues_main_loop_cons; [apply issues_probe_bpb_loop|].
  apply issues_main_loop_cons; [apply issues_probe_mac|].
  apply issues_main_loop_cons; [apply issues_probe_amiga|].
  apply issues_main_loop_cons; [apply issues_probe_c64|].
  apply issues_ret_full.
Qed.

(** Recording changes nothing else. *)

Section Erasure.

Context {W : Type} (H : Host W).

Variable p : Params.
Variable debug : bool.

Lemma erases_ret {A : Type} (a : A) :
  @erases W A (ret a) (ret a).
Proof. intros s. reflexivity. Qed.

Lemma erases_lift {A : Type} (r : result A) :
  @erases W A (lift r) (lift r).
Proof. intros s. reflexivity. Qed.

Lemma erases_bind {A B : Type}
  (mt : M (W * list (list string)) A) (m : M W A)
  (kt : A -> M (W * list (list string)) B) (k : A -> M W B) :
  erases mt m -> (forall a, erases (kt a) (k a)) ->
  erases (bind mt kt) (bind m k).
Proof.
  intros Hm Hk s. unfold bind. rewrite (Hm s).
  destruct (mt s) as [[a|e] s1]; cbn [fst snd]; [apply Hk | reflexivity].
Qed.

Lemma erases_mktemp :
  erases (os (@mktemp _ (traced H))) (os (@mktemp _ H)).
Proof.
  intros s. unfold os. cbn [mktemp traced].
  destruct (mktemp (fst s)) as [[name|] w1]; reflexivity.
Qed.

Lemma erases_subprocess_run (args : list string) :
  erases (os (@subprocess_run _ (traced H) args))
         (os (@subprocess_run _ H args)).
Proof.
  intros s. unfold os. cbn [subprocess_run traced].
  destruct (subprocess_run args (fst s)) as [[cp|] w1]; reflexivity.
Qed.

Lemma erases_open_read (name : string) :
  erases (os (@open_read _ (traced H) name)) (os (@open_read _ H name)).
Proof.
  intros s. unfold os. cbn [open_read traced].
  destruct (open_read name (fst s)) as [[content|] w1]; reflexivity.
Qed.

Lemma erases_unlink (name : string) :
  erases (os (@unlink _ (traced H) name)) (os (@unlink _ H name)).
Proof.
  intros s. unfold os. cbn [unlink traced].
  destruct (unlink name (fst s)) as [[u|] w1]; reflexivity.
Qed.

Lemma erases_read_track (decoder : string) (cylinder : Z) :
  erases (@read_track _ (traced H) decoder cylinder p)
         (@read_track _ H decoder cylinder p).
Proof.
  unfold read_track.
  apply erases_bind; [apply erases_mktemp|]. intros name.
  apply erases_bind; [apply erases_subprocess_run|]. intros cp.
  apply erases_bind; [|intros data; apply erases_lift].
  destruct (returncode cp =? 0); [|apply erases_ret].
  apply erases_bind; [apply erases_open_read|]. intros content.
  apply erases_bind; [apply erases_unlink|]. intros u.
  apply erases_ret.
Qed.

Ltac erase_step :=
  first
    [ apply erases_ret
    | apply erases_bind; [first [apply erases_read_track | apply erases_lift]|];
      intros ?
    | match goal with
      | |- erases (if ?c then _ else _) _ => destruct c
      end ].

Lemma erases_probe_bpb_loop (formats : list string) :
  erases (@probe_bpb_loop _ (traced H) p debug formats)
         (@probe_bpb_loop _ H p debug formats).
Proof.
  induction formats as [|name rest IH]; cbn [probe_bpb_loop].
  - apply erases_ret.
  - repeat first [exact IH | erase_step].
Qed.

Lemma erases_probe_mac_800 :
  erases (@probe_mac_800 _ (traced H) p debug) (@probe_mac_800 _ H p debug).
Proof. unfold probe_mac_800. repeat erase_step. Qed.

Lemma erases_probe_mac :
  erases (@probe_mac _ (traced H) p debug) (@probe_mac _ H p debug).
Proof.
  unfold probe_mac. destruct (media_size p); [|apply erases_ret].
  repeat first [apply erases_probe_mac_800 | erase_step].
Qed.

Lemma erases_probe_amiga :
  erases (@probe_amiga _ (traced H) p debug) (@probe_amiga _ H p debug).
Proof.
  unfold probe_amiga. destruct (media_size p); [|apply erases_ret].
  repeat erase_step.
Qed.

Lemma erases_probe_c64 :
  erases (@probe_c64 _ (traced H) p debug) (@probe_c64 _ H p debug).
Proof.
  unfold probe_c64. destruct (media_size p); [apply erases_ret|].
  repeat erase_step.
Qed.

Lemma erases_main_loop_cons
  (probe_t : Params -> bool -> M (W * list (list string)) verdict)
  (probe : Params -> bool -> M W verdict)
  (rest_t : list (Params -> bool -> M (W * list (list string)) verdict))
  (rest : list (Params -> bool -> M W verdict)) :
  erases (probe_t p debug) (probe p debug) ->
  erases (main_loop rest_t p debug) (main_loop rest p debug) ->
  erases (main_loop (probe_t :: rest_t) p debug)
         (main_loop (probe :: rest) p debug).
Proof.
  intros Hp Hr. cbn [main_loop].
  apply erases_bind; [exact Hp|].
  intros [[format|] filesystem]; [apply erases_ret | exact Hr].
Qed.

End Erasure.

Lemma erases_main {W : Type} (H : Host W) (args : Args) :
  erases (@main _ (traced H) args) (@main _ H args).
Proof.
  unfold main.
  apply erases_main_loop_cons;
    [unfold probe_bpb; apply erases_probe_bpb_loop|].
  apply erases_main_loop_cons; [apply erases_probe_mac|].
  apply erases_main_loop_cons; [apply erases_probe_amiga|].
  apply erases_main_loop_cons; [apply erases_probe_c64|].
  cbn [main_loop]. apply erases_ret.
Qed.

(** X13: On any host and from any start, the run of [main] asks for the
    [fluxengine read] command lines of a beginning of the track reads of
    the media size, in order and with nothing in between: at most five
    on 3.5-inch media (ibm1440, ibm720, ibm1440 again, mac800, amiga, all
    of cylinder 0), at most six on 5.25-inch media (the five FAT formats
    on cylinder 0, then commodore1541 on cylinder 17).  The fallback
    line is printed only after all of them.  The commands are those that
    the host records when it is made to record them, which changes
    neither the result nor the world. *)
Theorem main_track_reads :
  forall (W : Type) (H : Host W) (args : Args) (w : W)
         (log : list (list string)),
    exists (r : result Outcome) (w' : W)
           (cmds : list (list string)) (ran : list (string * Z)),
      @main _ H args w = (r, w') /\
      @main _ (traced H) args (w, log) = (r, (w', log ++ cmds)) /\
      Forall2 (is_read (fluxengine_params args)) cmds ran /\
      (exists rest, track_reads (args_size args) = ran ++ rest) /\
      (forall line, r = Ok (Returned line) ->
                    ran = track_reads (args_size args)).
Proof.
  intros W H args w log.
  destruct (@main _ (traced H) args (w, log)) as [r [w' log']] eqn:E.
  destruct (issues_main H args _ _ _ E) as [cmds [ran [L [F [P X]]]]].
  cbn [snd] in L. subst log'.
  exists r, w', cmds, ran.
  split.
  - pose proof (erases_main H args (w, log)) as Er.
    rewrite E in Er. exact Er.
  - split; [reflexivity|]. split; [exact F|]. split; [exact P|].
    intros line ->. apply X. reflexivity.
Qed.

(** ** The hex dump *)

Lemma append_nil_r (s : string) : (s ++ "")%string = s.
Proof.
  induction s as [|c s IH]; cbn [append]; [reflexivity | rewrite IH; reflexivity].
Qed.

(** A limit at or beyond the end of the data never breaks the loop. *)
Lemma dump_loop_beyond (data : list Z) :
  forall limit limit' addr buffer out,
    addr + len data <= limit -> addr + len data <= limit' ->
    dump_loop data limit addr buffer out = dump_loop data limit' addr buffer out.
Proof.
  induction data as [|b rest IH]; intros limit limit' addr buffer out L L'.
  - reflexivity.
  - unfold len in L, L'. cbn [List.length] in L, L'.
    cbn [dump_loop].
    destruct (Z.leb_spec limit addr); [lia|].
    destruct (Z.leb_spec limit' addr); [lia|].
    destruct (addr mod 16 =? 15); apply IH; unfold len; lia.
Qed.

(** Breaking at the limit is dumping the bytes before the limit. *)
Lemma dump_loop_break (data : list Z) :
  forall limit addr buffer out,
    dump_loop data limit addr buffer out =
    dump_loop (firstn (Z.to_nat (limit - addr)) data) limit addr buffer out.
Proof.
  induction data as [|b rest IH]; intros limit addr buffer out.
  - rewrite firstn_nil. reflexivity.
  - cbn [dump_loop].
    destruct (Z.leb_spec limit addr) as [L|L].
    + replace (Z.to_nat (limit - addr)) with 0%nat by lia. reflexivity.
    + replace (Z.to_nat (limit - addr))
        with (S (Z.to_nat (limit - (addr + 1)))) by lia.
      cbn [firstn dump_loop].
      destruct (Z.leb_spec limit addr); [lia|].
      destruct (addr mod 16 =? 15); apply IH.
Qed.

(** X14: A dump with a limit is the dump of the bytes before the limit: a
    limit of zero or less prints nothing, a limit beyond the end of
    the data is no limit. *)
Theorem dump_data_limit :
  forall (data : bytes) (limit : Z),
    dump_data data (Some limit)
    = dump_data (firstn (Z.to_nat limit) data) None.
Proof.
  intros data limit. unfold dump_data.
  rewrite dump_loop_break. rewrite Z.sub_0_r.
  unfold ints. rewrite <- firstn_map.
  destruct (Z_lt_le_dec limit 0) as [Neg|Pos].
  - replace (Z.to_nat limit) with 0%nat by lia. reflexivity.
  - rewrite (dump_loop_beyond _ limit (len (firstn (Z.to_nat limit) data))).
    + reflexivity.
    + unfold len. rewrite length_firstn, length_map. lia.
    + unfold len. rewrite !length_firstn, length_map. lia.
Qed.

Lemma printable_cons (b : Z) : exists c, printable b = String c "".
Proof.
  unfold printable. destruct ((32 <=? b) && (b <=? 127)); eauto.
Qed.

Lemma hex_column_cons (b : Z) (chunk : list Z) :
  hex_column (b :: chunk) = ((format_x 2 b ++ " ") ++ hex_column chunk)%string.
Proof. reflexivity. Qed.

Lemma text_column_cons (b : Z) (chunk : list Z) :
  text_column (b :: chunk) = (printable b ++ text_column chunk)%string.
Proof. reflexivity. Qed.

(** The loop inside a line, after its first byte: it adds to the two
    columns and, when the sixteenth byte comes, prints the line. *)
Lemma dump_loop_in_line (chunk : list Z) :
  forall rest limit addr buffer out,
    1 <= addr mod 16 -> addr mod 16 + len chunk <= 16 ->
    addr + len chunk <= limit ->
    dump_loop (chunk ++ rest) limit addr buffer out =
    if addr mod 16 + len chunk <? 16
    then dump_loop rest limit (addr + len chunk)
           (buffer ++ text_column chunk) (out ++ hex_column chunk)
    else dump_loop rest limit (addr + len chunk) ""
           (out ++ hex_column chunk ++ "  " ++ buffer ++ text_column chunk
                ++ newline).
Proof.
  induction chunk as [|b chunk IH]; intros rest limit addr buffer out M Fit L.
  - unfold len. cbn [List.length Z.of_nat app].
    rewrite !Z.add_0_r.
    destruct (Z.ltb_spec (addr mod 16) 16) as [_|Hge];
      [|pose proof (Z.mod_pos_bound addr 16); lia].
    unfold text_column, hex_column. cbn [map join fold_right].
    rewrite !append_nil_r. reflexivity.
  - assert (Len : len (b :: chunk) = 1 + len chunk)
      by (unfold len; cbn [List.length]; lia).
    rewrite Len in *. pose proof (len_nonneg chunk) as Hc.
    cbn [app dump_loop].
    destruct (Z.leb_spec limit addr); [lia|].
    destruct (Z.eqb_spec (addr mod 16) 0) as [E0|_]; [lia|].
    destruct (Z.eqb_spec (addr mod 16) 15) as [E15|N15].
    + assert (chunk = []) as ->.
      { destruct chunk; [reflexivity|].
        unfold len in Fit. cbn [List.length] in Fit. lia. }
      unfold len. cbn [List.length Z.of_nat app].
      destruct (Z.ltb_spec (addr mod 16 + (1 + 0)) 16); [lia|].
      replace (addr + (1 + 0)) with (addr + 1) by lia.
      rewrite hex_column_cons, text_column_cons.
      unfold hex_column, text_column. cbn [map join fold_right].
      rewrite !append_nil_r, !append_assoc. reflexivity.
    + assert (M1 : (addr + 1) mod 16 = addr mod 16 + 1).
      { Z.to_euclidean_division_equations. lia. }
      rewrite IH by lia.
      rewrite M1.
      replace (addr mod 16 + 1 + len chunk) with (addr mod 16 + (1 + len chunk))
        by lia.
      replace (addr + 1 + len chunk) with (addr + (1 + len chunk)) by lia.
      rewrite hex_column_cons, text_column_cons.
      rewrite !append_assoc. reflexivity.
Qed.

(** The loop on a line from its start: address, columns and, for a
    full line, the text and the line end. *)
Lemma dump_loop_line (b : Z) (chunk rest : list Z) (limit addr : Z)
  (out : string) :
  addr mod 16 = 0 -> 1 + len chunk <= 16 -> addr + (1 + len chunk) <= limit ->
  dump_loop ((b :: chunk) ++ rest) limit addr "" out =
  if 1 + len chunk <? 16
  then dump_loop rest limit (addr + (1 + len chunk))
         (text_column (b :: chunk))
         (out ++ format_x 4 addr ++ " " ++ hex_column (b :: chunk))
  else dump_loop rest limit (addr + (1 + len chunk)) ""
         (out ++ dump_line addr (b :: chunk)).
Proof.
  intros M Fit L. pose proof (len_nonneg chunk) as Hc.
  cbn [app dump_loop].
  destruct (Z.leb_spec limit addr); [lia|].
  rewrite M. cbn [Z.eqb].
  assert (M1 : (addr + 1) mod 16 = 1).
  { Z.to_euclidean_division_equations. lia. }
  rewrite dump_loop_in_line by lia.
  rewrite M1.
  replace (addr + 1 + len chunk) with (addr + (1 + len chunk)) by lia.
  rewrite hex_column_cons, text_column_cons. unfold dump_line.
  rewrite hex_column_cons, text_column_cons.
  cbn [append]. rewrite !append_assoc. reflexivity.
Qed.

Lemma dump_lines_nil (n : nat) (addr : Z) : dump_lines n addr [] = "".
Proof. destruct n; reflexivity. Qed.

(** The loop and the final flush print the lines of the data. *)
Lemma dump_loop_lines (n : nat) :
  forall (data : list Z) (limit addr : Z) (out : string),
    (List.length data <= n)%nat -> addr mod 16 = 0 ->
    addr + len data <= limit ->
    (let (buffer, out') := dump_loop data limit addr "" out in
     match buffer with
     | EmptyString => out'
     | _ => (out' ++ "  " ++ buffer ++ newline)%string
     end) = (out ++ dump_lines n addr data)%string.
Proof.
  induction n as [|n IH]; intros data limit addr out Hn M L.
  - destruct data; [|cbn [List.length] in Hn; lia].
    cbn [dump_loop dump_lines]. rewrite append_nil_r. reflexivity.
  - destruct data as [|b data].
    + cbn [dump_loop dump_lines]. rewrite append_nil_r. reflexivity.
    + cbn [dump_lines].
      rewrite <- (firstn_skipn 16 (b :: data)) at 1.
      change (firstn 16 (b :: data)) with (b :: firstn 15 data).
      assert (Lf : len (firstn 15 data) = Z.min 15 (len data)).
      { unfold len. rewrite length_firstn. lia. }
      assert (Ld : len (b :: data) = 1 + len data)
        by (unfold len; cbn [List.length]; lia).
      rewrite Ld in L. pose proof (len_nonneg data) as Hd.
      rewrite dump_loop_line by lia.
      destruct (Z.ltb_spec (1 + len (firstn 15 data)) 16) as [Short|Full].
      * assert (S0 : skipn 16 (b :: data) = []).
        { apply skipn_all2. cbn [List.length]. unfold len in *. lia. }
        rewrite S0. cbn [dump_loop]. rewrite dump_lines_nil, append_nil_r.
        destruct (printable_cons b) as [c Ec].
        rewrite text_column_cons, Ec. cbn [append].
        unfold dump_line. rewrite text_column_cons, Ec. cbn [append].
        rewrite !append_assoc. reflexivity.
      * replace (1 + len (firstn 15 data)) with 16 by lia.
        rewrite IH.
        -- rewrite append_assoc. reflexivity.
        -- rewrite length_skipn. cbn [List.length] in *. lia.
        -- Z.to_euclidean_division_equations. lia.
        -- unfold len in *. rewrite length_skipn. cbn [List.length] in *. lia.
Qed.

